(** * RAM_MemoryCleaner: the working-set trimming engine

    A shallow embedding of [MemoryCleaner.run] as written in [app_V1.py]
    and [app_V3.py], and the properties of one trim run.

    [run] talks to its host through seven calls: the memory sampler
    ([psutil.virtual_memory().available]), the runtime's collector
    ([gc.collect()]), the process enumerator ([psutil.process_iter]), the
    four [ctypes] bindings ([GetCurrentProcess], [OpenProcess],
    [EmptyWorkingSet], [CloseHandle]) and the Qt signal
    ([finished_with_freed.emit]).  The host is a parameter of the
    development: a record of state-passing functions over an arbitrary type
    of host states.  A run is a computation in a monad that threads the
    host state and the local variable [h], may raise a Python exception,
    and writes every call it makes, with the value it got back, to a trace.

    Modelling boundary.  The two bindings the source calls inside [try]
    blocks with an argument, [OpenProcess] and [EmptyWorkingSet], either
    return or raise an instance of [Exception] (what a [ctypes] call can
    raise: [OSError], [ArgumentError]); [GetCurrentProcess] returns.  The
    five calls the source makes outside every handler (the sampler,
    [gc.collect()], the generator's [next], [CloseHandle], [emit]) return
    in [V1] and [V3]; [V1F] and [V3F] are the same engine when they may
    raise as well.  A value handed to [emit] is recorded as the Python
    integer it is; [signal_payload] is what the signal, a [Signal(int)],
    carries of it to its listeners. *)

From Stdlib Require Import ZArith List Bool String Ascii DecimalString Lia.
Import ListNotations.
Open Scope Z_scope.

(** ** Python values at the [ctypes] boundary *)

(** The Python value of a foreign call whose [restype] is [wintypes.HANDLE]
    (a [c_void_p]): [None] for a NULL pointer, the integer otherwise. *)
Definition pyhandle : Type := option Z.

Definition c_void_p_value (raw : Z) : pyhandle :=
  if raw =? 0 then None else Some raw.

(** Truth value of [h] in [if h:] and [if not h:]. *)
Definition truthy (h : pyhandle) : bool :=
  match h with
  | None => false
  | Some v => negb (v =? 0)
  end.

(** Instances of [Exception] a foreign call can raise. *)
Inductive PyException : Type :=
| OSError (winerror : Z)
| ArgumentError (msg : string).

Inductive res (A : Type) : Type :=
| Ok (a : A)
| Err (e : PyException).
Arguments Ok {A} a.
Arguments Err {A} e.

(** [p.info] for [attrs=["pid", "name", "username"]]; psutil stores [None]
    for an attribute it was denied. *)
Record ProcessRecord : Type := {
  pid : Z;
  name : option string;
  username : option string
}.

(** ** The trace of one run *)

Inductive event : Type :=
| EvVirtualMemory (available : Z)
| EvGcCollect
| EvGetCurrentProcess (h : pyhandle)
| EvEmptyWorkingSet (h : pyhandle) (r : res Z)
| EvOpenProcess (access : Z) (inherit : bool) (target : Z) (r : res pyhandle)
| EvCloseHandle (h : pyhandle) (r : Z)
| EvNext (r : option ProcessRecord)
| EvEmit (freed : Z).

(** ** The host *)

(** The generator returned by [psutil.process_iter]: lazy and finite.  What
    it yields next may depend on the host state at the time of the [next]
    call. *)
Inductive generator (World : Type) : Type :=
| GenStop
| GenYield (p : ProcessRecord) (rest : World -> generator World).
Arguments GenStop {World}.
Arguments GenYield {World} p rest.

Record Host (World : Type) : Type := {
  host_available : World -> Z * World;
  host_collect : World -> World;
  host_current : World -> Z * World;
  host_open : Z -> bool -> Z -> World -> res Z * World;
  host_trim : pyhandle -> World -> res Z * World;
  host_close : pyhandle -> World -> Z * World;
  host_iter : World -> generator World
}.
Arguments host_available {World} _ _.
Arguments host_collect {World} _ _.
Arguments host_current {World} _ _.
Arguments host_open {World} _ _ _ _ _.
Arguments host_trim {World} _ _ _.
Arguments host_close {World} _ _ _.
Arguments host_iter {World} _ _.

(** ** The monad of a run *)

(** The host state and the loop's local variable [h], which the [try]
    block assigns and the [finally] block reads. *)
Record frame (World : Type) : Type := {
  world : World;
  var_h : pyhandle
}.
Arguments world {World} _.
Arguments var_h {World} _.

Definition M (World A : Type) : Type :=
  frame World -> res A * frame World * list event.

Section Monad.
Context {World : Type}.

Definition ret {A} (a : A) : M World A :=
  fun s => (Ok a, s, []).

Definition bind {A B} (m : M World A) (f : A -> M World B) : M World B :=
  fun s =>
    match m s with
    | (Ok a, s1, t1) =>
        let '(r, s2, t2) := f a s1 in (r, s2, t1 ++ t2)
    | (Err e, s1, t1) => (Err e, s1, t1)
    end.

(** [h = v] *)
Definition set_h (v : pyhandle) : M World unit :=
  fun s => (Ok tt, {| world := world s; var_h := v |}, []).

(** reading [h] *)
Definition get_h : M World pyhandle :=
  fun s => (Ok (var_h s), s, []).

(** [try: body / except Exception: handler] *)
Definition try_except (body : M World unit)
    (handler : PyException -> M World unit) : M World unit :=
  fun s =>
    match body s with
    | (Ok a, s1, t1) => (Ok a, s1, t1)
    | (Err e, s1, t1) =>
        let '(r, s2, t2) := handler e s1 in (r, s2, t1 ++ t2)
    end.

(** [try: body / finally: fin]: [fin] runs on every exit of [body]; an
    exception pending from [body] is raised again after it, unless [fin]
    raises one itself. *)
Definition try_finally (body fin : M World unit) : M World unit :=
  fun s =>
    let '(r1, s1, t1) := body s in
    let '(r2, s2, t2) := fin s1 in
    (match r2 with
     | Ok _ => r1
     | Err e => Err e
     end, s2, t1 ++ t2).

(** [for p in g: body p] *)
Fixpoint for_in (g : generator World) (body : ProcessRecord -> M World unit)
  : M World unit :=
  match g with
  | GenStop => fun s => (Ok tt, s, [EvNext None])
  | GenYield p rest =>
      fun s =>
        match body p s with
        | (Ok _, s1, t1) =>
            let '(r, s2, t2) := for_in (rest (world s1)) body s1 in
            (r, s2, EvNext (Some p) :: t1 ++ t2)
        | (Err e, s1, t1) => (Err e, s1, EvNext (Some p) :: t1)
        end
  end.

End Monad.

Declare Scope py_scope.
Delimit Scope py_scope with py.
Notation "x <- m ;; k" := (bind m (fun x => k))
  (at level 61, m at next level, right associativity) : py_scope.
Notation "m ;; k" := (bind m (fun _ => k))
  (at level 61, right associativity) : py_scope.
Open Scope py_scope.

(** [int(x)] of a Python integer. *)
Definition int (x : Z) : Z := x.

(** [pid in (0, 4)] *)
Definition in_0_4 (pid : Z) : bool := (pid =? 0) || (pid =? 4).

Section Calls.
Context {World : Type}.

(** A call that returns or raises. *)
Definition call_raising {A} (f : World -> res A * World)
    (ev : res A -> event) : M World A :=
  fun s =>
    let '(r, w) := f (world s) in
    (r, {| world := w; var_h := var_h s |}, [ev r]).

(** A call that returns. *)
Definition call_total {A} (f : World -> A * World) (ev : A -> event)
  : M World A :=
  fun s =>
    let '(a, w) := f (world s) in
    (Ok a, {| world := w; var_h := var_h s |}, [ev a]).

End Calls.

(** ** V1: [app_V1.py] *)

Module V1.

(** Lines 34-36. *)
Definition PROCESS_QUERY_INFORMATION : Z := 0x0400.
Definition PROCESS_SET_QUOTA : Z := 0x0100.
Definition PROCESS_QUERY_LIMITED_INFORMATION : Z := 0x1000.

Section Engine.
Context {World : Type} (host : Host World).

(** [psutil.virtual_memory().available] *)
Definition virtual_memory_available : M World Z :=
  call_total (host_available host) EvVirtualMemory.

(** [gc.collect()] *)
Definition gc_collect : M World unit :=
  call_total (fun w => (tt, host_collect host w)) (fun _ => EvGcCollect).

(** The bindings of lines 19-32; [restype = wintypes.HANDLE] turns
    the pointer into a [pyhandle]. *)
Definition GetCurrentProcess : M World pyhandle :=
  call_total
    (fun w => let '(raw, w1) := host_current host w in
              (c_void_p_value raw, w1))
    EvGetCurrentProcess.

Definition OpenProcess (access : Z) (inherit : bool) (target : Z)
  : M World pyhandle :=
  call_raising
    (fun w => let '(r, w1) := host_open host access inherit target w in
              (match r with
               | Ok raw => Ok (c_void_p_value raw)
               | Err e => Err e
               end, w1))
    (EvOpenProcess access inherit target).

Definition EmptyWorkingSet (h : pyhandle) : M World Z :=
  call_raising (host_trim host h) (EvEmptyWorkingSet h).

Definition CloseHandle (h : pyhandle) : M World Z :=
  call_total (host_close host h) (EvCloseHandle h).

(** [for p in psutil.process_iter(attrs=[...]): body p] *)
Definition for_process_iter (body : ProcessRecord -> M World unit)
  : M World unit :=
  fun s => for_in (host_iter host (world s)) body s.

(** [self.finished_with_freed.emit(v)], when it returns.  The event holds
    the argument; [signal_payload] is what the listeners receive. *)
Definition emit (v : Z) : M World unit :=
  fun s => (Ok tt, s, [EvEmit v]).

(** The body of the [for] loop, lines 55-73. *)
Definition loop_body (p : ProcessRecord) : M World unit :=
  let pid := pid p in
  if in_0_4 pid then ret tt (* continue *)
  else
    set_h None ;;
    try_finally
      (try_except
         (h <- OpenProcess
                 (Z.lor PROCESS_QUERY_INFORMATION PROCESS_SET_QUOTA)
                 false pid ;;
          set_h h ;;
          h <- get_h ;;
          (if negb (truthy h) then
             h2 <- OpenProcess
                     (Z.lor PROCESS_QUERY_LIMITED_INFORMATION
                            PROCESS_SET_QUOTA)
                     false pid ;;
             set_h h2
           else ret tt) ;;
          h <- get_h ;;
          if truthy h then
            _ <- EmptyWorkingSet h ;; ret tt
          else ret tt)
         (fun _ => ret tt (* pass *)))
      (h <- get_h ;;
       if truthy h then
         _ <- CloseHandle h ;; ret tt
       else ret tt).

(** [MemoryCleaner.run], lines 42-80. *)
Definition run : M World unit :=
  before <- virtual_memory_available ;;
  gc_collect ;;
  try_except
    (hc <- GetCurrentProcess ;;
     _ <- EmptyWorkingSet hc ;;
     ret tt)
    (fun _ => ret tt (* pass *)) ;;
  for_process_iter loop_body ;;
  after <- virtual_memory_available ;;
  let freed := after - before in
  let freed := if freed <? 0 then 0 else freed in
  emit (int freed).

End Engine.

End V1.

(** ** V3: [app_V3.py] *)

Module V3.

(** Lines 34-36. *)
Definition PROCESS_QUERY_INFORMATION : Z := 0x0400.
Definition PROCESS_SET_QUOTA : Z := 0x0100.
Definition PROCESS_QUERY_LIMITED_INFORMATION : Z := 0x1000.

Section Engine.
Context {World : Type} (host : Host World).

(** [psutil.virtual_memory().available] *)
Definition virtual_memory_available : M World Z :=
  call_total (host_available host) EvVirtualMemory.

(** [gc.collect()] *)
Definition gc_collect : M World unit :=
  call_total (fun w => (tt, host_collect host w)) (fun _ => EvGcCollect).

(** The bindings of lines 19-32; [restype = wintypes.HANDLE] turns
    the pointer into a [pyhandle]. *)
Definition GetCurrentProcess : M World pyhandle :=
  call_total
    (fun w => let '(raw, w1) := host_current host w in
              (c_void_p_value raw, w1))
    EvGetCurrentProcess.

Definition OpenProcess (access : Z) (inherit : bool) (target : Z)
  : M World pyhandle :=
  call_raising
    (fun w => let '(r, w1) := host_open host access inherit target w in
              (match r with
               | Ok raw => Ok (c_void_p_value raw)
               | Err e => Err e
               end, w1))
    (EvOpenProcess access inherit target).

Definition EmptyWorkingSet (h : pyhandle) : M World Z :=
  call_raising (host_trim host h) (EvEmptyWorkingSet h).

Definition CloseHandle (h : pyhandle) : M World Z :=
  call_total (host_close host h) (EvCloseHandle h).

(** [for p in psutil.process_iter(attrs=[...]): body p] *)
Definition for_process_iter (body : ProcessRecord -> M World unit)
  : M World unit :=
  fun s => for_in (host_iter host (world s)) body s.

(** [self.finished_with_freed.emit(v)], when it returns.  The event holds
    the argument; [signal_payload] is what the listeners receive. *)
Definition emit (v : Z) : M World unit :=
  fun s => (Ok tt, s, [EvEmit v]).

(** The body of the [for] loop, lines 52-66. *)
Definition loop_body (p : ProcessRecord) : M World unit :=
  let pid := pid p in
  if in_0_4 pid then ret tt (* continue *)
  else
    set_h None ;;
    try_finally
      (try_except
         (h <- OpenProcess
                 (Z.lor PROCESS_QUERY_INFORMATION PROCESS_SET_QUOTA)
                 false pid ;;
          set_h h ;;
          h <- get_h ;;
          (if negb (truthy h) then
             h2 <- OpenProcess
                     (Z.lor PROCESS_QUERY_LIMITED_INFORMATION
                            PROCESS_SET_QUOTA)
                     false pid ;;
             set_h h2
           else ret tt) ;;
          h <- get_h ;;
          if truthy h then
            _ <- EmptyWorkingSet h ;; ret tt
          else ret tt)
         (fun _ => ret tt (* pass *)))
      (h <- get_h ;;
       if truthy h then
         _ <- CloseHandle h ;; ret tt
       else ret tt).

(** [MemoryCleaner.run], lines 42-72. *)
Definition run : M World unit :=
  before <- virtual_memory_available ;;
  gc_collect ;;
  try_except
    (hc <- GetCurrentProcess ;;
     _ <- EmptyWorkingSet hc ;;
     ret tt)
    (fun _ => ret tt (* pass *)) ;;
  for_process_iter loop_body ;;
  after <- virtual_memory_available ;;
  let freed := after - before in
  let freed := if freed <? 0 then 0 else freed in
  emit (int freed).

End Engine.

End V3.

(** ** Running the engine *)

(** The frame a run starts in: [h] is not bound yet. *)
Definition start {World : Type} (w : World) : frame World :=
  {| world := w; var_h := None |}.

Definition outcome_of {World A} (m : M World A) (w : World) : res A :=
  fst (fst (m (start w))).

Definition trace_of {World A} (m : M World A) (w : World) : list event :=
  snd (m (start w)).

(** ** A concrete host *)

(** A generator that yields the records of a list, whatever the host
    state. *)
Fixpoint gen_of_list {World : Type} (l : list ProcessRecord)
  : generator World :=
  match l with
  | [] => GenStop
  | p :: l' => GenYield p (fun _ => gen_of_list l')
  end.

Definition proc (n : Z) : ProcessRecord :=
  {| pid := n; name := None; username := None |}.

(** The pseudo handle of the current process, (HANDLE)-1 on a 64-bit
    host. *)
Definition pseudo_handle : Z := 2 ^ 64 - 1.

(** A host whose state is the number of available bytes.  Every trim that
    succeeds changes it by [gain].  Process 100 opens at the first tier,
    200 at the second only, 300 at neither, opening 400 raises, 500 opens
    but its trim raises, and 600 opens but its trim is refused; the handle
    of process [n] is [n + 1]. *)
Definition demo_open (access : Z) (inherit : bool) (target : Z) (w : Z)
  : res Z * Z :=
  if target =? 100 then (Ok 101, w)
  else if target =? 200 then
    ((if access =? 0x1100 then Ok 201 else Ok 0), w)
  else if target =? 400 then (Err (OSError 5), w)
  else if target =? 500 then (Ok 501, w)
  else if target =? 600 then (Ok 601, w)
  else (Ok 0, w).

Definition demo_trim (gain : Z) (h : pyhandle) (w : Z) : res Z * Z :=
  match h with
  | Some 501 => (Err (OSError 6), w)
  | Some 601 => (Ok 0, w)
  | Some _ => (Ok 1, w + gain)
  | None => (Ok 0, w)
  end.

Definition demo_host (gain : Z) (procs : list ProcessRecord) : Host Z :=
  {| host_available := fun w => (w, w);
     host_collect := fun w => w;
     host_current := fun w => (pseudo_handle, w);
     host_open := demo_open;
     host_trim := demo_trim gain;
     host_close := fun _ w => (1, w);
     host_iter := fun _ => gen_of_list procs |}.

Definition demo_procs : list ProcessRecord :=
  [proc 0; proc 4; proc 100; proc 200; proc 300; proc 400; proc 500;
   proc 600].

(** ** The shape of a trace *)

(** The two access masks, [PROCESS_QUERY_INFORMATION | PROCESS_SET_QUOTA]
    and [PROCESS_QUERY_LIMITED_INFORMATION | PROCESS_SET_QUOTA]. *)
Definition FULL_ACCESS : Z := 0x0500.
Definition LIMITED_ACCESS : Z := 0x1100.

(** The calls made for one process that is not skipped: one descent
    through the two tiers, then a trim and a close when a handle came
    back. *)
Inductive attempt (target : Z) : list event -> Prop :=
| attempt_raise1 e :
    attempt target [EvOpenProcess FULL_ACCESS false target (Err e)]
| attempt_tier1 h r c :
    truthy h = true ->
    attempt target
      [EvOpenProcess FULL_ACCESS false target (Ok h);
       EvEmptyWorkingSet h r; EvCloseHandle h c]
| attempt_raise2 h1 e :
    truthy h1 = false ->
    attempt target
      [EvOpenProcess FULL_ACCESS false target (Ok h1);
       EvOpenProcess LIMITED_ACCESS false target (Err e)]
| attempt_refused h1 h2 :
    truthy h1 = false -> truthy h2 = false ->
    attempt target
      [EvOpenProcess FULL_ACCESS false target (Ok h1);
       EvOpenProcess LIMITED_ACCESS false target (Ok h2)]
| attempt_tier2 h1 h r c :
    truthy h1 = false -> truthy h = true ->
    attempt target
      [EvOpenProcess FULL_ACCESS false target (Ok h1);
       EvOpenProcess LIMITED_ACCESS false target (Ok h);
       EvEmptyWorkingSet h r; EvCloseHandle h c].

(** The calls made for one enumerated record. *)
Definition iteration (p : ProcessRecord) (t : list event) : Prop :=
  if in_0_4 (pid p) then t = [] else attempt (pid p) t.

(** The trace of the loop, from the records it saw and the calls it made
    for each. *)
Definition block (it : ProcessRecord * list event) : list event :=
  EvNext (Some (fst it)) :: snd it.

Definition loop_trace (its : list (ProcessRecord * list event))
  : list event :=
  flat_map block its ++ [EvNext None].

(** What a run does before and after the loop. *)
Definition prologue (before : Z) (hc : pyhandle) (rt : res Z) : list event :=
  [EvVirtualMemory before; EvGcCollect;
   EvGetCurrentProcess hc; EvEmptyWorkingSet hc rt].

Definition epilogue (before after : Z) : list event :=
  [EvVirtualMemory after; EvEmit (Z.max 0 (after - before))].

(** The whole run. *)
Inductive run_shape : res unit -> list event -> Prop :=
| run_shape_intro before hc rt its after :
    Forall (fun it => iteration (fst it) (snd it)) its ->
    run_shape (Ok tt)
      (prologue before hc rt ++ loop_trace its ++ epilogue before after).

(** ** Either variant *)

Inductive variant : Type :=
| app_V1
| app_V3.

Definition run_of {World} (v : variant) (host : Host World) : M World unit :=
  match v with
  | app_V1 => V1.run host
  | app_V3 => V3.run host
  end.

(** ** What a trace shows *)

(** The memory samples taken, in order. *)
Definition sample_of (e : event) : list Z :=
  match e with
  | EvVirtualMemory v => [v]
  | _ => []
  end.

Definition samples (t : list event) : list Z := flat_map sample_of t.

(** The values handed to the completion signal, in order. *)
Definition emit_of (e : event) : list Z :=
  match e with
  | EvEmit v => [v]
  | _ => []
  end.

Definition emitted (t : list event) : list Z := flat_map emit_of t.


(** The records the enumerator yielded, in order. *)
Definition record_of (e : event) : list ProcessRecord :=
  match e with
  | EvNext (Some p) => [p]
  | _ => []
  end.

Definition enumerated (t : list event) : list ProcessRecord :=
  flat_map record_of t.

(** The handles [OpenProcess] returned, in order. *)
Definition acquisition_of (e : event) : list pyhandle :=
  match e with
  | EvOpenProcess _ _ _ (Ok h) => if truthy h then [h] else []
  | _ => []
  end.

Definition acquired (t : list event) : list pyhandle :=
  flat_map acquisition_of t.

(** The handles handed to [CloseHandle], in order. *)
Definition closing_of (e : event) : list pyhandle :=
  match e with
  | EvCloseHandle h _ => [h]
  | _ => []
  end.

Definition closed (t : list event) : list pyhandle := flat_map closing_of t.

(** The handles handed to [EmptyWorkingSet], in order. *)
Definition trimming_of (e : event) : list pyhandle :=
  match e with
  | EvEmptyWorkingSet h _ => [h]
  | _ => []
  end.

Definition trimmed (t : list event) : list pyhandle :=
  flat_map trimming_of t.

(** The targets handed to [OpenProcess], in order. *)
Definition target_of (e : event) : list Z :=
  match e with
  | EvOpenProcess _ _ target _ => [target]
  | _ => []
  end.

Definition targets (t : list event) : list Z := flat_map target_of t.

(** The access masks handed to [OpenProcess], in order. *)
Definition access_of (e : event) : list Z :=
  match e with
  | EvOpenProcess access _ _ _ => [access]
  | _ => []
  end.

Definition accesses (t : list event) : list Z := flat_map access_of t.

(** Calls to the generator. *)
Definition is_next (e : event) : bool :=
  match e with
  | EvNext _ => true
  | _ => false
  end.

(** How many handles of other processes are open after a trace: those
    acquired less those closed. *)
Definition held (t : list event) : Z :=
  Z.of_nat (List.length (acquired t)) - Z.of_nat (List.length (closed t)).

(** Calls on another process's handle or identifier. *)
Definition is_open_or_close (e : event) : bool :=
  match e with
  | EvOpenProcess _ _ _ _ | EvCloseHandle _ _ => true
  | _ => false
  end.

(** * The widget around the engine

    [MonitorWidget] of both files, as far as it is Python: the fields its
    methods read and write, and the methods themselves as functions on a
    record of those fields.  What Qt does with a value once it has it
    (painting, layout, fonts, the toast's place, size and fade) is not part
    of the record.  Python strings are kept as their UTF-8 bytes. *)

(** ** Qt and Python values *)

(** A C [int] of Qt, as the integer it holds after wrap-around. *)
Definition int32 (z : Z) : Z := (z + 2 ^ 31) mod 2 ^ 32 - 2 ^ 31.

(** [QPoint], and [a - b] on it. *)
Record QPoint : Type := {
  qx : Z;
  qy : Z
}.

Definition QPoint_minus (a b : QPoint) : QPoint :=
  {| qx := int32 (qx a - qx b); qy := int32 (qy a - qy b) |}.

(** [Qt.LeftButton] and [QSystemTrayIcon.Trigger]. *)
Definition LeftButton : Z := 1.
Definition Trigger : Z := 3.

(** What the handlers read of a [QMouseEvent]: [button()], [buttons()] and
    [globalPosition().toPoint()]. *)
Record QMouseEvent : Type := {
  button : Z;
  buttons : Z;
  globalPoint : QPoint
}.

(** [str(n)] of a Python integer, as in [f"{n}"]. *)
Definition str (n : Z) : string := NilZero.string_of_int (Z.to_int n).

(** The character U+200E, left-to-right mark. *)
Definition LRM : string :=
  String "226" (String "128" (String "142" EmptyString)).

(** Python's floats, as far as the widget uses them: [0.0], [==], [+],
    [-], [*], the constant [0.3], [int(round(x))] and [int(x)]. *)
Record Float (F : Type) : Type := {
  fl_zero : F;
  fl_eqb : F -> F -> bool;
  fl_add : F -> F -> F;
  fl_sub : F -> F -> F;
  fl_mul : F -> F -> F;
  fl_alpha : F;
  fl_round : F -> Z;
  fl_trunc : F -> Z
}.
Arguments fl_zero {F} _.
Arguments fl_eqb {F} _ _ _.
Arguments fl_add {F} _ _ _.
Arguments fl_sub {F} _ _ _.
Arguments fl_mul {F} _ _ _.
Arguments fl_alpha {F} _.
Arguments fl_round {F} _ _.
Arguments fl_trunc {F} _ _.

(** What reaches the widget from outside.  A click on a button reaches its
    slot only while the button is enabled; the tray menu's entries are
    never disabled by the source. *)
Inductive gui_event (F : Type) : Type :=
| ClickClean
| ClickTaskManager
| TrayClean
| TrayShowHide
| TrayActivated (reason : Z)
| TimerTick (ram cpu : F)
| CleanerFinished (freed_bytes : Z)
| MousePress (e : QMouseEvent)
| MouseMove (e : QMouseEvent).
Arguments ClickClean {F}.
Arguments ClickTaskManager {F}.
Arguments TrayClean {F}.
Arguments TrayShowHide {F}.
Arguments TrayActivated {F} reason.
Arguments TimerTick {F} ram cpu.
Arguments CleanerFinished {F} freed_bytes.
Arguments MousePress {F} e.
Arguments MouseMove {F} e.

(** ** W1: [MonitorWidget] of [app_V1.py] *)

Module W1.

Section Widget.
Context {F : Type} (fl : Float F).

(** The fields: the window's position, [drag_pos], the enabled flags of
    the two buttons, the text of the one label and the toast's text. *)
Record widget : Type := {
  frame_top_left : QPoint;
  drag_pos : QPoint;
  clean_btn_enabled : bool;
  action_btn_enabled : bool;
  info_label : string;
  toast_text : string
}.

Definition with_frame_top_left (v : QPoint) (w : widget) : widget :=
  {| frame_top_left := v; drag_pos := drag_pos w;
     clean_btn_enabled := clean_btn_enabled w;
     action_btn_enabled := action_btn_enabled w;
     info_label := info_label w; toast_text := toast_text w |}.

Definition with_drag_pos (v : QPoint) (w : widget) : widget :=
  {| frame_top_left := frame_top_left w; drag_pos := v;
     clean_btn_enabled := clean_btn_enabled w;
     action_btn_enabled := action_btn_enabled w;
     info_label := info_label w; toast_text := toast_text w |}.

Definition with_clean_btn_enabled (v : bool) (w : widget) : widget :=
  {| frame_top_left := frame_top_left w; drag_pos := drag_pos w;
     clean_btn_enabled := v; action_btn_enabled := action_btn_enabled w;
     info_label := info_label w; toast_text := toast_text w |}.

Definition with_action_btn_enabled (v : bool) (w : widget) : widget :=
  {| frame_top_left := frame_top_left w; drag_pos := drag_pos w;
     clean_btn_enabled := clean_btn_enabled w; action_btn_enabled := v;
     info_label := info_label w; toast_text := toast_text w |}.

Definition with_info_label (v : string) (w : widget) : widget :=
  {| frame_top_left := frame_top_left w; drag_pos := drag_pos w;
     clean_btn_enabled := clean_btn_enabled w;
     action_btn_enabled := action_btn_enabled w; info_label := v;
     toast_text := toast_text w |}.

Definition with_toast_text (v : string) (w : widget) : widget :=
  {| frame_top_left := frame_top_left w; drag_pos := drag_pos w;
     clean_btn_enabled := clean_btn_enabled w;
     action_btn_enabled := action_btn_enabled w;
     info_label := info_label w; toast_text := v |}.

(** [mousePressEvent], lines 230-233; the second component tells whether
    [event.accept()] was called. *)
Definition mousePressEvent (event : QMouseEvent) (w : widget)
  : widget * bool :=
  if button event =? LeftButton then
    (with_drag_pos (QPoint_minus (globalPoint event) (frame_top_left w)) w,
     true)
  else (w, false).

(** [mouseMoveEvent], lines 235-238; [self.move(p)] puts the frame's top
    left corner at [p]. *)
Definition mouseMoveEvent (event : QMouseEvent) (w : widget)
  : widget * bool :=
  if negb (Z.land (buttons event) LeftButton =? 0) then
    (with_frame_top_left (QPoint_minus (globalPoint event) (drag_pos w)) w,
     true)
  else (w, false).

(** The text of line 257. *)
Definition cleaning_text : string :=
  "Cleaning"
  ++ String "195" (String "162" (String "226" (String "130"
       (String "172" (String "194" (String "166" EmptyString)))))).

(** [update_stats], lines 240-244, for the two readings [vm.percent] and
    [psutil.cpu_percent(interval=None)]. *)
Definition update_stats (ram cpu : F) (w : widget) : widget :=
  let ram_pct := fl_trunc fl ram in
  let cpu_pct := fl_trunc fl cpu in
  with_info_label
    ("RAM: " ++ str ram_pct ++ "%   CPU: " ++ str cpu_pct ++ "%") w.

(** [set_cleaning_ui], lines 253-258. *)
Definition set_cleaning_ui (cleaning : bool) (w : widget) : widget :=
  let w := with_clean_btn_enabled (negb cleaning) w in
  let w := with_action_btn_enabled (negb cleaning) w in
  if cleaning then with_info_label cleaning_text w else w.

(** [show_freed_toast], lines 260-277. *)
Definition show_freed_toast (freed_bytes : Z) (w : widget) : widget :=
  let mb := Z.max 0 (freed_bytes / (1024 * 1024)) in
  with_toast_text ("Freed " ++ str mb ++ " MB") w.

(** [on_clean_done], lines 285-287. *)
Definition on_clean_done (freed_bytes : Z) (w : widget) : widget :=
  show_freed_toast freed_bytes (set_cleaning_ui false w).

(** The widget in its process: the [MemoryCleaner] threads started and
    not yet reported, and the argument lists handed to
    [subprocess.Popen]. *)
Record app : Type := {
  ui : widget;
  cleaners_running : nat;
  popen_calls : list (list string)
}.

Definition with_ui (v : widget) (w : app) : app :=
  {| ui := v; cleaners_running := cleaners_running w;
     popen_calls := popen_calls w |}.

Definition with_cleaners_running (v : nat) (w : app) : app :=
  {| ui := ui w; cleaners_running := v; popen_calls := popen_calls w |}.

Definition with_popen_calls (v : list (list string)) (w : app) : app :=
  {| ui := ui w; cleaners_running := cleaners_running w;
     popen_calls := v |}.

(** [clean_memory], lines 279-283.  The thread it starts is counted.
    [self.cleaner] is bound anew; what Qt does to a thread that is still
    running when the only reference to it goes is not modelled, so the
    count is that of the source only when no cleaner runs at the call. *)
Definition clean_memory (a : app) : app :=
  let a := with_ui (set_cleaning_ui true (ui a)) a in
  with_cleaners_running (S (cleaners_running a)) a.

(** [open_task_manager], lines 246-251; what [Popen] raises is dropped. *)
Definition open_task_manager (a : app) : app :=
  with_popen_calls (popen_calls a ++ [["taskmgr"%string]]) a.

(** The connections of lines 190-195, 203 and 282, and the two mouse
    handlers; this widget has no tray entry that shows or hides it. *)
Definition dispatch (a : app) (ev : gui_event F) : app :=
  match ev with
  | ClickClean =>
      if clean_btn_enabled (ui a) then clean_memory a else a
  | ClickTaskManager =>
      if action_btn_enabled (ui a) then open_task_manager a else a
  | TrayClean => clean_memory a
  | TrayShowHide => a
  | TrayActivated _ => a
  | TimerTick ram cpu => with_ui (update_stats ram cpu (ui a)) a
  | CleanerFinished freed_bytes =>
      match cleaners_running a with
      | O => a
      | S n =>
          with_cleaners_running n
            (with_ui (on_clean_done freed_bytes (ui a)) a)
      end
  | MousePress e => with_ui (fst (mousePressEvent e (ui a))) a
  | MouseMove e => with_ui (fst (mouseMoveEvent e (ui a))) a
  end.

End Widget.

End W1.

(** ** W3: [MonitorWidget] of [app_V3.py] *)

Module W3.

Section Widget.
Context {F : Type} (fl : Float F).

(** The fields: the window's position and visibility, [drag_pos], the
    enabled flags of the two buttons, the texts of the two value labels,
    the smoothing state of lines 203-206, the toast's text, and the number
    of [panel.update] calls made. *)
Record widget : Type := {
  frame_top_left : QPoint;
  visible : bool;
  drag_pos : QPoint;
  clean_btn_enabled : bool;
  action_btn_enabled : bool;
  ram_val : string;
  cpu_val : string;
  _disp_ram : F;
  _disp_cpu : F;
  _last_ram_i : Z;
  _last_cpu_i : Z;
  toast_text : string;
  panel_updates : nat
}.

Definition with_frame_top_left (v : QPoint) (w : widget) : widget :=
  {| frame_top_left := v; visible := visible w; drag_pos := drag_pos w;
     clean_btn_enabled := clean_btn_enabled w;
     action_btn_enabled := action_btn_enabled w; ram_val := ram_val w;
     cpu_val := cpu_val w; _disp_ram := _disp_ram w;
     _disp_cpu := _disp_cpu w; _last_ram_i := _last_ram_i w;
     _last_cpu_i := _last_cpu_i w; toast_text := toast_text w;
     panel_updates := panel_updates w |}.

Definition with_visible (v : bool) (w : widget) : widget :=
  {| frame_top_left := frame_top_left w; visible := v;
     drag_pos := drag_pos w; clean_btn_enabled := clean_btn_enabled w;
     action_btn_enabled := action_btn_enabled w; ram_val := ram_val w;
     cpu_val := cpu_val w; _disp_ram := _disp_ram w;
     _disp_cpu := _disp_cpu w; _last_ram_i := _last_ram_i w;
     _last_cpu_i := _last_cpu_i w; toast_text := toast_text w;
     panel_updates := panel_updates w |}.

Definition with_drag_pos (v : QPoint) (w : widget) : widget :=
  {| frame_top_left := frame_top_left w; visible := visible w;
     drag_pos := v; clean_btn_enabled := clean_btn_enabled w;
     action_btn_enabled := action_btn_enabled w; ram_val := ram_val w;
     cpu_val := cpu_val w; _disp_ram := _disp_ram w;
     _disp_cpu := _disp_cpu w; _last_ram_i := _last_ram_i w;
     _last_cpu_i := _last_cpu_i w; toast_text := toast_text w;
     panel_updates := panel_updates w |}.

Definition with_clean_btn_enabled (v : bool) (w : widget) : widget :=
  {| frame_top_left := frame_top_left w; visible := visible w;
     drag_pos := drag_pos w; clean_btn_enabled := v;
     action_btn_enabled := action_btn_enabled w; ram_val := ram_val w;
     cpu_val := cpu_val w; _disp_ram := _disp_ram w;
     _disp_cpu := _disp_cpu w; _last_ram_i := _last_ram_i w;
     _last_cpu_i := _last_cpu_i w; toast_text := toast_text w;
     panel_updates := panel_updates w |}.

Definition with_action_btn_enabled (v : bool) (w : widget) : widget :=
  {| frame_top_left := frame_top_left w; visible := visible w;
     drag_pos := drag_pos w; clean_btn_enabled := clean_btn_enabled w;
     action_btn_enabled := v; ram_val := ram_val w; cpu_val := cpu_val w;
     _disp_ram := _disp_ram w; _disp_cpu := _disp_cpu w;
     _last_ram_i := _last_ram_i w; _last_cpu_i := _last_cpu_i w;
     toast_text := toast_text w; panel_updates := panel_updates w |}.

Definition with_ram_val (v : string) (w : widget) : widget :=
  {| frame_top_left := frame_top_left w; visible := visible w;
     drag_pos := drag_pos w; clean_btn_enabled := clean_btn_enabled w;
     action_btn_enabled := action_btn_enabled w; ram_val := v;
     cpu_val := cpu_val w; _disp_ram := _disp_ram w;
     _disp_cpu := _disp_cpu w; _last_ram_i := _last_ram_i w;
     _last_cpu_i := _last_cpu_i w; toast_text := toast_text w;
     panel_updates := panel_updates w |}.

Definition with_cpu_val (v : string) (w : widget) : widget :=
  {| frame_top_left := frame_top_left w; visible := visible w;
     drag_pos := drag_pos w; clean_btn_enabled := clean_btn_enabled w;
     action_btn_enabled := action_btn_enabled w; ram_val := ram_val w;
     cpu_val := v; _disp_ram := _disp_ram w; _disp_cpu := _disp_cpu w;
     _last_ram_i := _last_ram_i w; _last_cpu_i := _last_cpu_i w;
     toast_text := toast_text w; panel_updates := panel_updates w |}.

Definition with__disp_ram (v : F) (w : widget) : widget :=
  {| frame_top_left := frame_top_left w; visible := visible w;
     drag_pos := drag_pos w; clean_btn_enabled := clean_btn_enabled w;
     action_btn_enabled := action_btn_enabled w; ram_val := ram_val w;
     cpu_val := cpu_val w; _disp_ram := v; _disp_cpu := _disp_cpu w;
     _last_ram_i := _last_ram_i w; _last_cpu_i := _last_cpu_i w;
     toast_text := toast_text w; panel_updates := panel_updates w |}.

Definition with__disp_cpu (v : F) (w : widget) : widget :=
  {| frame_top_left := frame_top_left w; visible := visible w;
     drag_pos := drag_pos w; clean_btn_enabled := clean_btn_enabled w;
     action_btn_enabled := action_btn_enabled w; ram_val := ram_val w;
     cpu_val := cpu_val w; _disp_ram := _disp_ram w; _disp_cpu := v;
     _last_ram_i := _last_ram_i w; _last_cpu_i := _last_cpu_i w;
     toast_text := toast_text w; panel_updates := panel_updates w |}.

Definition with__last_ram_i (v : Z) (w : widget) : widget :=
  {| frame_top_left := frame_top_left w; visible := visible w;
     drag_pos := drag_pos w; clean_btn_enabled := clean_btn_enabled w;
     action_btn_enabled := action_btn_enabled w; ram_val := ram_val w;
     cpu_val := cpu_val w; _disp_ram := _disp_ram w;
     _disp_cpu := _disp_cpu w; _last_ram_i := v;
     _last_cpu_i := _last_cpu_i w; toast_text := toast_text w;
     panel_updates := panel_updates w |}.

Definition with__last_cpu_i (v : Z) (w : widget) : widget :=
  {| frame_top_left := frame_top_left w; visible := visible w;
     drag_pos := drag_pos w; clean_btn_enabled := clean_btn_enabled w;
     action_btn_enabled := action_btn_enabled w; ram_val := ram_val w;
     cpu_val := cpu_val w; _disp_ram := _disp_ram w;
     _disp_cpu := _disp_cpu w; _last_ram_i := _last_ram_i w;
     _last_cpu_i := v; toast_text := toast_text w;
     panel_updates := panel_updates w |}.

Definition with_toast_text (v : string) (w : widget) : widget :=
  {| frame_top_left := frame_top_left w; visible := visible w;
     drag_pos := drag_pos w; clean_btn_enabled := clean_btn_enabled w;
     action_btn_enabled := action_btn_enabled w; ram_val := ram_val w;
     cpu_val := cpu_val w; _disp_ram := _disp_ram w;
     _disp_cpu := _disp_cpu w; _last_ram_i := _last_ram_i w;
     _last_cpu_i := _last_cpu_i w; toast_text := v;
     panel_updates := panel_updates w |}.

Definition with_panel_updates (v : nat) (w : widget) : widget :=
  {| frame_top_left := frame_top_left w; visible := visible w;
     drag_pos := drag_pos w; clean_btn_enabled := clean_btn_enabled w;
     action_btn_enabled := action_btn_enabled w; ram_val := ram_val w;
     cpu_val := cpu_val w; _disp_ram := _disp_ram w;
     _disp_cpu := _disp_cpu w; _last_ram_i := _last_ram_i w;
     _last_cpu_i := _last_cpu_i w; toast_text := toast_text w;
     panel_updates := v |}.

(** [mousePressEvent], lines 253-256; the second component tells whether
    [event.accept()] was called. *)
Definition mousePressEvent (event : QMouseEvent) (w : widget)
  : widget * bool :=
  if button event =? LeftButton then
    (with_drag_pos (QPoint_minus (globalPoint event) (frame_top_left w)) w,
     true)
  else (w, false).

(** [mouseMoveEvent], lines 258-261; [self.move(p)] puts the frame's top
    left corner at [p]. *)
Definition mouseMoveEvent (event : QMouseEvent) (w : widget)
  : widget * bool :=
  if negb (Z.land (buttons event) LeftButton =? 0) then
    (with_frame_top_left (QPoint_minus (globalPoint event) (drag_pos w)) w,
     true)
  else (w, false).

(** [ltr_text], lines 264-267. *)
Definition ltr_text (text : string) : string := LRM ++ text.

(** [update_stats], lines 269-299, for the two readings
    [float(vm.percent)] and [float(psutil.cpu_percent(interval=None))]. *)
Definition update_stats (ram cpu : F) (w : widget) : widget :=
  let alpha := fl_alpha fl in
  let w :=
    if (_last_ram_i w =? -1) && (_last_cpu_i w =? -1)
       && fl_eqb fl (_disp_ram w) (fl_zero fl)
       && fl_eqb fl (_disp_cpu w) (fl_zero fl)
    then with__disp_cpu cpu (with__disp_ram ram w)
    else
      with__disp_cpu
        (fl_add fl (_disp_cpu w)
           (fl_mul fl (fl_sub fl cpu (_disp_cpu w)) alpha))
        (with__disp_ram
           (fl_add fl (_disp_ram w)
              (fl_mul fl (fl_sub fl ram (_disp_ram w)) alpha))
           w) in
  let ram_i := fl_round fl (_disp_ram w) in
  let cpu_i := fl_round fl (_disp_cpu w) in
  let updated_any := false in
  let '(w, updated_any) :=
    if negb (ram_i =? _last_ram_i w) then
      (with__last_ram_i ram_i
         (with_ram_val (ltr_text (str ram_i ++ "%")) w), true)
    else (w, updated_any) in
  let '(w, updated_any) :=
    if negb (cpu_i =? _last_cpu_i w) then
      (with__last_cpu_i cpu_i
         (with_cpu_val (ltr_text (str cpu_i ++ "%")) w), true)
    else (w, updated_any) in
  if updated_any then with_panel_updates (2 + panel_updates w) w else w.

(** [set_cleaning_ui], lines 309-314. *)
Definition set_cleaning_ui (cleaning : bool) (w : widget) : widget :=
  let w := with_clean_btn_enabled (negb cleaning) w in
  let w := with_action_btn_enabled (negb cleaning) w in
  if cleaning then
    with_cpu_val (ltr_text "...") (with_ram_val (ltr_text "...") w)
  else w.

(** [show_freed_toast], lines 316-334. *)
Definition show_freed_toast (freed_bytes : Z) (w : widget) : widget :=
  let mb := Z.max 0 (freed_bytes / (1024 * 1024)) in
  with_toast_text ("Freed " ++ str mb ++ " MB") w.

(** [on_clean_done], lines 342-344. *)
Definition on_clean_done (freed_bytes : Z) (w : widget) : widget :=
  show_freed_toast freed_bytes (set_cleaning_ui false w).

(** [toggle_visible], lines 347-351. *)
Definition toggle_visible (w : widget) : widget :=
  if visible w then with_visible false w else with_visible true w.

(** [on_tray_activated], lines 353-355. *)
Definition on_tray_activated (reason : Z) (w : widget) : widget :=
  if reason =? Trigger then toggle_visible w else w.

(** The widget in its process: the [MemoryCleaner] threads started and
    not yet reported, and the argument lists handed to
    [subprocess.Popen]. *)
Record app : Type := {
  ui : widget;
  cleaners_running : nat;
  popen_calls : list (list string)
}.

Definition with_ui (v : widget) (w : app) : app :=
  {| ui := v; cleaners_running := cleaners_running w;
     popen_calls := popen_calls w |}.

Definition with_cleaners_running (v : nat) (w : app) : app :=
  {| ui := ui w; cleaners_running := v; popen_calls := popen_calls w |}.

Definition with_popen_calls (v : list (list string)) (w : app) : app :=
  {| ui := ui w; cleaners_running := cleaners_running w;
     popen_calls := v |}.

(** [clean_memory], lines 336-340.  The thread it starts is counted.
    [self.cleaner] is bound anew; what Qt does to a thread that is still
    running when the only reference to it goes is not modelled, so the
    count is that of the source only when no cleaner runs at the call. *)
Definition clean_memory (a : app) : app :=
  let a := with_ui (set_cleaning_ui true (ui a)) a in
  with_cleaners_running (S (cleaners_running a)) a.

(** [open_task_manager], lines 302-307; what [Popen] raises is dropped. *)
Definition open_task_manager (a : app) : app :=
  with_popen_calls (popen_calls a ++ [["taskmgr"%string]]) a.

(** The connections of lines 211-216, 225-226, 233 and 339, and the two
    mouse handlers. *)
Definition dispatch (a : app) (ev : gui_event F) : app :=
  match ev with
  | ClickClean =>
      if clean_btn_enabled (ui a) then clean_memory a else a
  | ClickTaskManager =>
      if action_btn_enabled (ui a) then open_task_manager a else a
  | TrayClean => clean_memory a
  | TrayShowHide => with_ui (toggle_visible (ui a)) a
  | TrayActivated reason => with_ui (on_tray_activated reason (ui a)) a
  | TimerTick ram cpu => with_ui (update_stats ram cpu (ui a)) a
  | CleanerFinished freed_bytes =>
      match cleaners_running a with
      | O => a
      | S n =>
          with_cleaners_running n
            (with_ui (on_clean_done freed_bytes (ui a)) a)
      end
  | MousePress e => with_ui (fst (mousePressEvent e (ui a))) a
  | MouseMove e => with_ui (fst (mouseMoveEvent e (ui a))) a
  end.

End Widget.

End W3.

(** ** The widget and the engine together *)

(** One cleaning, from the call of [clean_memory] to the return of
    [on_clean_done]: the thread that [clean_memory] starts executes [run],
    and each value [run] emits reaches the slot connected in
    [clean_memory].  [signal_int] is what a slot connected to a
    [Signal(int)] receives for an emitted Python integer, if anything. *)
Definition W1_clean_cycle {World F} (fl : Float F)
    (signal_int : Z -> option Z) (host : Host World) (w : World)
    (a : W1.app) : W1.app :=
  fold_left
    (fun a v =>
       match signal_int v with
       | Some x => W1.dispatch fl a (CleanerFinished x)
       | None => a
       end)
    (emitted (trace_of (V1.run host) w))
    (W1.clean_memory a).

Definition W3_clean_cycle {World F} (fl : Float F)
    (signal_int : Z -> option Z) (host : Host World) (w : World)
    (a : W3.app) : W3.app :=
  fold_left
    (fun a v =>
       match signal_int v with
       | Some x => W3.dispatch fl a (CleanerFinished x)
       | None => a
       end)
    (emitted (trace_of (V3.run host) w))
    (W3.clean_memory a).

(** A series of events reaching the widget. *)
Definition W1_events {F} (fl : Float F) (evs : list (gui_event F))
    (a : W1.app) : W1.app :=
  fold_left (W1.dispatch fl) evs a.

Definition W3_events {F} (fl : Float F) (evs : list (gui_event F))
    (a : W3.app) : W3.app :=
  fold_left (W3.dispatch fl) evs a.

(** A series of mouse moves. *)
Definition W1_moves (moves : list QMouseEvent) (w : W1.widget) : W1.widget :=
  fold_left (fun w e => fst (W1.mouseMoveEvent e w)) moves w.

Definition W3_moves {F} (moves : list QMouseEvent) (w : @W3.widget F)
  : @W3.widget F :=
  fold_left (fun w e => fst (W3.mouseMoveEvent e w)) moves w.

(** Where the cursor was at the last move made with the left button
    down. *)
Definition last_left_move (moves : list QMouseEvent) : option QPoint :=
  fold_left
    (fun acc e =>
       if negb (Z.land (buttons e) LeftButton =? 0)
       then Some (globalPoint e) else acc)
    moves None.

(** Points whose differences do not overflow. *)
Definition in_range (p : QPoint) : Prop :=
  - 2 ^ 29 <= qx p < 2 ^ 29 /\ - 2 ^ 29 <= qy p < 2 ^ 29.

(** A series of timer ticks. *)
Definition W3_ticks {F} (fl : Float F) (ticks : list (F * F))
    (w : @W3.widget F) : @W3.widget F :=
  fold_left (fun w t => W3.update_stats fl (fst t) (snd t) w) ticks w.

(** The label shows the cached percentage. *)
Definition W3_shows_cached {F} (w : @W3.widget F) : Prop :=
  W3.ram_val w = W3.ltr_text (str (W3._last_ram_i w) ++ "%")
  /\ W3.cpu_val w = W3.ltr_text (str (W3._last_cpu_i w) ++ "%").

(** A series of activations of the tray icon. *)
Definition W3_activations {F} (reasons : list Z) (w : @W3.widget F)
  : @W3.widget F :=
  fold_left (fun w r => W3.on_tray_activated r w) reasons w.


(** Records the loop does not skip. *)
Definition not_skipped (p : ProcessRecord) : bool := negb (in_0_4 (pid p)).

(** Floats stood in for by integers, in tenths: enough to run the
    widget. *)
Definition tenths : Float Z :=
  {| fl_zero := 0;
     fl_eqb := Z.eqb;
     fl_add := Z.add;
     fl_sub := Z.sub;
     fl_mul := fun a b => a * b / 10;
     fl_alpha := 3;
     fl_round := fun x => (x + 5) / 10;
     fl_trunc := fun x => x / 10 |}.

Definition origin : QPoint := {| qx := 0; qy := 0 |}.

(** The fields as [__init__] leaves them, before its call of
    [update_stats], with the window shown at [origin]. *)
Definition W3_fresh {F} (fl : Float F) : @W3.widget F :=
  {| W3.frame_top_left := origin;
     W3.visible := true;
     W3.drag_pos := origin;
     W3.clean_btn_enabled := true;
     W3.action_btn_enabled := true;
     W3.ram_val := "";
     W3.cpu_val := "";
     W3._disp_ram := fl_zero fl;
     W3._disp_cpu := fl_zero fl;
     W3._last_ram_i := -1;
     W3._last_cpu_i := -1;
     W3.toast_text := "";
     W3.panel_updates := 0 |}.

Definition W1_fresh : W1.widget :=
  {| W1.frame_top_left := origin;
     W1.drag_pos := origin;
     W1.clean_btn_enabled := true;
     W1.action_btn_enabled := true;
     W1.info_label := "RAM: 0%   CPU: 0%";
     W1.toast_text := "" |}.

Definition W3_app {F} (w : @W3.widget F) : @W3.app F :=
  {| W3.ui := w; W3.cleaners_running := 0; W3.popen_calls := [] |}.

Definition W1_app (w : W1.widget) : W1.app :=
  {| W1.ui := w; W1.cleaners_running := 0; W1.popen_calls := [] |}.



(** Concrete mouse events and a signal that drops what does not fit a C
    [int]. *)
Definition mouse (b bs x y : Z) : QMouseEvent :=
  {| button := b; buttons := bs; globalPoint := {| qx := x; qy := y |} |}.

Definition c_int_signal (v : Z) : option Z :=
  if (- 2 ^ 31 <=? v) && (v <? 2 ^ 31) then Some v else None.

(** Clicks on one of the two buttons. *)
Definition is_click {F} (ev : gui_event F) : bool :=
  match ev with
  | ClickClean | ClickTaskManager => true
  | _ => false
  end.

(** * The engine when any call may raise

    [V1.run] and [V3.run] are the engine on a host whose sampler,
    collector, generator, [CloseHandle] and signal return.  The source
    calls these five outside every handler, so an exception from any of
    them leaves [run].  Here the host is paired with what raises: for each
    of the five calls, whether it raises in a given host state instead of
    returning, with which exception, and the state it leaves. *)

Record Faults (World : Type) : Type := {
  fault_available : World -> option (PyException * World);
  fault_collect : World -> option (PyException * World);
  fault_next : World -> option (PyException * World);
  fault_close : pyhandle -> World -> option (PyException * World);
  fault_emit : Z -> World -> option (PyException * World)
}.
Arguments fault_available {World} _ _.
Arguments fault_collect {World} _ _.
Arguments fault_next {World} _ _.
Arguments fault_close {World} _ _ _.
Arguments fault_emit {World} _ _ _.

(** Nothing raises. *)
Definition no_faults {World : Type} : Faults World :=
  {| fault_available := fun _ => None;
     fault_collect := fun _ => None;
     fault_next := fun _ => None;
     fault_close := fun _ _ => None;
     fault_emit := fun _ _ => None |}.

(** A call that raises when [fault] says so, and is [m] otherwise. *)
Definition or_raise {World A} (fault : World -> option (PyException * World))
    (m : M World A) : M World A :=
  fun s =>
    match fault (world s) with
    | Some (e, w) => (Err e, {| world := w; var_h := var_h s |}, [])
    | None => m s
    end.

(** [for p in g: body p], where each call of the generator's [next] may
    raise. *)
Fixpoint for_in_faulty {World}
    (fault : World -> option (PyException * World))
    (g : generator World) (body : ProcessRecord -> M World unit)
  : M World unit :=
  fun s =>
    match fault (world s) with
    | Some (e, w) => (Err e, {| world := w; var_h := var_h s |}, [])
    | None =>
        match g with
        | GenStop => (Ok tt, s, [EvNext None])
        | GenYield p rest =>
            match body p s with
            | (Ok _, s1, t1) =>
                let '(r, s2, t2) :=
                  for_in_faulty fault (rest (world s1)) body s1 in
                (r, s2, EvNext (Some p) :: t1 ++ t2)
            | (Err e, s1, t1) => (Err e, s1, EvNext (Some p) :: t1)
            end
        end
    end.

(** What the slots connected to [finished_with_freed] receive for the
    Python integer handed to [emit]: the signal is declared [Signal(int)]
    at line 40 of both files, and carries a C [int]. *)
Definition signal_payload (v : Z) : Z := int32 v.

(** The values a run reports to its listeners, in order. *)
Definition reported (t : list event) : list Z :=
  map signal_payload (emitted t).

(** ** V1F: [app_V1.py], any call may raise *)

Module V1F.

Section Engine.
Context {World : Type} (host : Host World) (faults : Faults World).

(** [psutil.virtual_memory().available] *)
Definition virtual_memory_available : M World Z :=
  or_raise (fault_available faults) (V1.virtual_memory_available host).

(** [gc.collect()] *)
Definition gc_collect : M World unit :=
  or_raise (fault_collect faults) (V1.gc_collect host).

(** [CloseHandle(h)] *)
Definition CloseHandle (h : pyhandle) : M World Z :=
  or_raise (fault_close faults h) (V1.CloseHandle host h).

(** [for p in psutil.process_iter(attrs=[...]): body p] *)
Definition for_process_iter (body : ProcessRecord -> M World unit)
  : M World unit :=
  fun s => for_in_faulty (fault_next faults) (host_iter host (world s)) body s.

(** [self.finished_with_freed.emit(v)] *)
Definition emit (v : Z) : M World unit :=
  or_raise (fault_emit faults v) (V1.emit v).

(** The body of the [for] loop, lines 55-73. *)
Definition loop_body (p : ProcessRecord) : M World unit :=
  let pid := pid p in
  if in_0_4 pid then ret tt (* continue *)
  else
    set_h None ;;
    try_finally
      (try_except
         (h <- V1.OpenProcess host
                 (Z.lor V1.PROCESS_QUERY_INFORMATION V1.PROCESS_SET_QUOTA)
                 false pid ;;
          set_h h ;;
          h <- get_h ;;
          (if negb (truthy h) then
             h2 <- V1.OpenProcess host
                     (Z.lor V1.PROCESS_QUERY_LIMITED_INFORMATION
                            V1.PROCESS_SET_QUOTA)
                     false pid ;;
             set_h h2
           else ret tt) ;;
          h <- get_h ;;
          if truthy h then
            _ <- V1.EmptyWorkingSet host h ;; ret tt
          else ret tt)
         (fun _ => ret tt (* pass *)))
      (h <- get_h ;;
       if truthy h then
         _ <- CloseHandle h ;; ret tt
       else ret tt).

(** [MemoryCleaner.run], lines 42-80. *)
Definition run : M World unit :=
  before <- virtual_memory_available ;;
  gc_collect ;;
  try_except
    (hc <- V1.GetCurrentProcess host ;;
     _ <- V1.EmptyWorkingSet host hc ;;
     ret tt)
    (fun _ => ret tt (* pass *)) ;;
  for_process_iter loop_body ;;
  after <- virtual_memory_available ;;
  let freed := after - before in
  let freed := if freed <? 0 then 0 else freed in
  emit (int freed).

End Engine.

End V1F.

(** ** V3F: [app_V3.py], any call may raise *)

Module V3F.

Section Engine.
Context {World : Type} (host : Host World) (faults : Faults World).

(** [psutil.virtual_memory().available] *)
Definition virtual_memory_available : M World Z :=
  or_raise (fault_available faults) (V3.virtual_memory_available host).

(** [gc.collect()] *)
Definition gc_collect : M World unit :=
  or_raise (fault_collect faults) (V3.gc_collect host).

(** [CloseHandle(h)] *)
Definition CloseHandle (h : pyhandle) : M World Z :=
  or_raise (fault_close faults h) (V3.CloseHandle host h).

(** [for p in psutil.process_iter(attrs=[...]): body p] *)
Definition for_process_iter (body : ProcessRecord -> M World unit)
  : M World unit :=
  fun s => for_in_faulty (fault_next faults) (host_iter host (world s)) body s.

(** [self.finished_with_freed.emit(v)] *)
Definition emit (v : Z) : M World unit :=
  or_raise (fault_emit faults v) (V3.emit v).

(** The body of the [for] loop, lines 52-66. *)
Definition loop_body (p : ProcessRecord) : M World unit :=
  let pid := pid p in
  if in_0_4 pid then ret tt (* continue *)
  else
    set_h None ;;
    try_finally
      (try_except
         (h <- V3.OpenProcess host
                 (Z.lor V3.PROCESS_QUERY_INFORMATION V3.PROCESS_SET_QUOTA)
                 false pid ;;
          set_h h ;;
          h <- get_h ;;
          (if negb (truthy h) then
             h2 <- V3.OpenProcess host
                     (Z.lor V3.PROCESS_QUERY_LIMITED_INFORMATION
                            V3.PROCESS_SET_QUOTA)
                     false pid ;;
             set_h h2
           else ret tt) ;;
          h <- get_h ;;
          if truthy h then
            _ <- V3.EmptyWorkingSet host h ;; ret tt
          else ret tt)
         (fun _ => ret tt (* pass *)))
      (h <- get_h ;;
       if truthy h then
         _ <- CloseHandle h ;; ret tt
       else ret tt).

(** [MemoryCleaner.run], lines 42-72. *)
Definition run : M World unit :=
  before <- virtual_memory_available ;;
  gc_collect ;;
  try_except
    (hc <- V3.GetCurrentProcess host ;;
     _ <- V3.EmptyWorkingSet host hc ;;
     ret tt)
    (fun _ => ret tt (* pass *)) ;;
  for_process_iter loop_body ;;
  after <- virtual_memory_available ;;
  let freed := after - before in
  let freed := if freed <? 0 then 0 else freed in
  emit (int freed).

End Engine.

End V3F.

Definition run_faulty_of {World} (v : variant) (host : Host World)
    (faults : Faults World) : M World unit :=
  match v with
  | app_V1 => V1F.run host faults
  | app_V3 => V3F.run host faults
  end.

(** A collector that raises, whatever the state. *)
Definition gc_fails {World : Type} (e : PyException) : Faults World :=
  {| fault_available := fun _ => None;
     fault_collect := fun w => Some (e, w);
     fault_next := fun _ => None;
     fault_close := fun _ _ => None;
     fault_emit := fun _ _ => None |}.
(** ** The two variants are one program *)

Lemma V1_loop_body_V3 {World} (host : Host World) :
  V1.loop_body host = V3.loop_body host.
Proof. reflexivity. Qed.

Lemma V1_run_V3 {World} (host : Host World) : V1.run host = V3.run host.
Proof. reflexivity. Qed.

(** ** The shape of the loop body and of the run *)

Lemma truthy_c_void_p (raw : Z) :
  truthy (c_void_p_value raw) = negb (raw =? 0).
Proof.
  unfold c_void_p_value. destruct (raw =? 0) eqn:E; cbn; [reflexivity|].
  now rewrite E.
Qed.

Ltac truthy_known :=
  repeat match goal with
    | H : (?raw =? 0) = _ |- context [truthy (c_void_p_value ?raw)] =>
        rewrite (truthy_c_void_p raw), H; cbn
    end.

Lemma loop_body_shape {World} (host : Host World) p s :
  exists s1 t, V3.loop_body host p s = (Ok tt, s1, t) /\ iteration p t.
Proof.
  unfold V3.loop_body, iteration.
  destruct (in_0_4 (pid p)) eqn:Hskip.
  - exists s, []. split; reflexivity.
  - unfold try_finally, try_except, bind, set_h, get_h, ret,
      V3.OpenProcess, V3.EmptyWorkingSet, V3.CloseHandle,
      call_raising, call_total; cbn.
    destruct (host_open host _ false (pid p) (world s)) as [[raw1|e1] w1]
      eqn:H1; cbn.
    + destruct (raw1 =? 0) eqn:Z1; truthy_known.
      * destruct (host_open host _ false (pid p) w1) as [[raw2|e2] w2]
          eqn:H2; cbn.
        -- destruct (raw2 =? 0) eqn:Z2; truthy_known.
           ++ eexists _, _. split; [reflexivity|].
              apply attempt_refused; rewrite truthy_c_void_p;
                [now rewrite Z1 | now rewrite Z2].
           ++ destruct (host_trim host _ w2) as [[b|e] w3] eqn:H3; cbn;
                truthy_known;
                destruct (host_close host _ w3) as [c w4] eqn:H4; cbn;
                (eexists _, _; split; [reflexivity|]);
                apply attempt_tier2; rewrite truthy_c_void_p;
                [now rewrite Z1 | now rewrite Z2 | now rewrite Z1
                | now rewrite Z2].
        -- truthy_known. eexists _, _. split; [reflexivity|].
           apply attempt_raise2. rewrite truthy_c_void_p. now rewrite Z1.
      * destruct (host_trim host _ w1) as [[b|e] w3] eqn:H3; cbn;
          truthy_known;
          destruct (host_close host _ w3) as [c w4] eqn:H4; cbn;
          (eexists _, _; split; [reflexivity|]);
          apply attempt_tier1; rewrite truthy_c_void_p; now rewrite Z1.
    + eexists _, _. split; [reflexivity|]. apply attempt_raise1.
Qed.

Lemma loop_trace_cons p t its :
  loop_trace ((p, t) :: its) = EvNext (Some p) :: t ++ loop_trace its.
Proof.
  unfold loop_trace. cbn. now rewrite <- app_assoc.
Qed.

Lemma for_in_shape {World} (host : Host World) (g : generator World) :
  forall s, exists s1 its,
    for_in g (V3.loop_body host) s = (Ok tt, s1, loop_trace its)
    /\ Forall (fun it => iteration (fst it) (snd it)) its.
Proof.
  induction g as [|p rest IH]; intros s.
  - exists s, []. split; [reflexivity | constructor].
  - cbn [for_in].
    destruct (loop_body_shape host p s) as (s1 & t & Hbody & Hit).
    rewrite Hbody.
    destruct (IH (world s1) s1) as (s2 & its & Hrest & Hits).
    rewrite Hrest.
    exists s2, ((p, t) :: its). split.
    + now rewrite loop_trace_cons.
    + constructor; [exact Hit | exact Hits].
Qed.

(** Lines 69-71 of [app_V3.py] (77-79 of [app_V1.py]) compute a maximum. *)
Lemma clamp_is_max (before after : Z) :
  (if after - before <? 0 then 0 else after - before)
  = Z.max 0 (after - before).
Proof.
  destruct (after - before <? 0) eqn:E.
  - apply Z.ltb_lt in E. lia.
  - apply Z.ltb_ge in E. lia.
Qed.

(** Sequencing two computations whose results are known. *)
Lemma bind_eval {World A B} (m : M World A) (f : A -> M World B)
    s a s1 t1 r s2 t2 :
  m s = (Ok a, s1, t1) ->
  f a s1 = (r, s2, t2) ->
  bind m f s = (r, s2, t1 ++ t2).
Proof.
  intros Hm Hf. unfold bind. now rewrite Hm, Hf.
Qed.

Lemma call_total_eval {World A} (f : World -> A * World) ev
    (s : frame World) :
  call_total f ev s
  = (Ok (fst (f (world s))),
     {| world := snd (f (world s)); var_h := var_h s |},
     [ev (fst (f (world s)))]).
Proof.
  unfold call_total. now destruct (f (world s)).
Qed.

(** Lines 46-49 of [app_V3.py]: the self-trim makes its two calls and
    lets no exception out. *)
Lemma self_trim_eval {World} (host : Host World) (s : frame World) :
  exists hc rt s1,
    try_except
      (hc <- V3.GetCurrentProcess host ;;
       _ <- V3.EmptyWorkingSet host hc ;;
       ret tt)
      (fun _ => ret tt) s
    = (Ok tt, s1, [EvGetCurrentProcess hc; EvEmptyWorkingSet hc rt]).
Proof.
  unfold try_except, bind, V3.GetCurrentProcess, V3.EmptyWorkingSet,
    call_total, call_raising, ret.
  destruct (host_current host (world s)) as [raw w1]. cbn.
  destruct (host_trim host (c_void_p_value raw) w1) as [[b|e] w2]; cbn;
    eexists _, _, _; reflexivity.
Qed.

Lemma V3_run_eval {World} (host : Host World) (w : World) :
  exists before hc rt its after s1,
    V3.run host (start w)
    = (Ok tt, s1,
       [EvVirtualMemory before; EvGcCollect;
        EvGetCurrentProcess hc; EvEmptyWorkingSet hc rt]
       ++ loop_trace its
       ++ [EvVirtualMemory after; EvEmit (Z.max 0 (after - before))])
    /\ Forall (fun it => iteration (fst it) (snd it)) its.
Proof.
  unfold V3.run.
  set (s0 := start w).
  pose proof (call_total_eval (host_available host) EvVirtualMemory s0)
    as Hbefore.
  set (before := fst (host_available host (world s0))) in *.
  set (sa := {| world := snd (host_available host (world s0));
                var_h := var_h s0 |}) in *.
  pose proof (call_total_eval (fun w => (tt, host_collect host w))
                (fun _ => EvGcCollect) sa) as Hgc.
  cbn [fst snd] in Hgc.
  set (sb := {| world := host_collect host (world sa);
                var_h := var_h sa |}) in *.
  destruct (self_trim_eval host sb) as (hc & rt & sc & Hself).
  destruct (for_in_shape host (host_iter host (world sc)) sc)
    as (sd & its & Hloop & Hits).
  pose proof (call_total_eval (host_available host) EvVirtualMemory sd)
    as Hafter.
  set (after := fst (host_available host (world sd))) in *.
  exists before, hc, rt, its, after. eexists. split; [|exact Hits].
  eapply eq_trans.
  - eapply bind_eval; [exact Hbefore|].
    eapply bind_eval; [exact Hgc|].
    eapply bind_eval; [exact Hself|].
    eapply bind_eval; [exact Hloop|].
    eapply bind_eval; [exact Hafter|].
    unfold V3.emit, int. rewrite clamp_is_max. reflexivity.
  - reflexivity.
Qed.

Lemma V3_run_shape {World} (host : Host World) (w : World) :
  run_shape (outcome_of (V3.run host) w) (trace_of (V3.run host) w).
Proof.
  unfold outcome_of, trace_of.
  destruct (V3_run_eval host w)
    as (before & hc & rt & its & after & s1 & Hrun & Hits).
  rewrite Hrun. cbn [fst snd]. now constructor.
Qed.

Lemma V1_run_shape {World} (host : Host World) (w : World) :
  run_shape (outcome_of (V1.run host) w) (trace_of (V1.run host) w).
Proof.
  rewrite V1_run_V3. apply V3_run_shape.
Qed.

Lemma run_of_shape {World} (v : variant) (host : Host World) (w : World) :
  run_shape (outcome_of (run_of v host) w) (trace_of (run_of v host) w).
Proof.
  destruct v; [apply V1_run_shape | apply V3_run_shape].
Qed.

(** ** Samples and emitted values of a run *)

Lemma samples_app t1 t2 : samples (t1 ++ t2) = samples t1 ++ samples t2.
Proof. apply flat_map_app. Qed.

Lemma emitted_app t1 t2 : emitted (t1 ++ t2) = emitted t1 ++ emitted t2.
Proof. apply flat_map_app. Qed.

Lemma attempt_quiet target t :
  attempt target t -> samples t = [] /\ emitted t = [].
Proof.
  destruct 1; split; reflexivity.
Qed.

Lemma iteration_quiet p t :
  iteration p t -> samples t = [] /\ emitted t = [].
Proof.
  unfold iteration. destruct (in_0_4 (pid p)).
  - intros ->. split; reflexivity.
  - apply attempt_quiet.
Qed.

Lemma loop_quiet its :
  Forall (fun it => iteration (fst it) (snd it)) its ->
  samples (loop_trace its) = [] /\ emitted (loop_trace its) = [].
Proof.
  induction 1 as [|[p t] its Hit _ IH].
  - split; reflexivity.
  - rewrite loop_trace_cons. cbn [fst snd] in Hit.
    destruct (iteration_quiet _ _ Hit) as [Hs He], IH as [IHs IHe].
    split.
    + change (samples (EvNext (Some p) :: t ++ loop_trace its))
        with (samples (t ++ loop_trace its)).
      now rewrite samples_app, Hs, IHs.
    + change (emitted (EvNext (Some p) :: t ++ loop_trace its))
        with (emitted (t ++ loop_trace its)).
      now rewrite emitted_app, He, IHe.
Qed.

(** The two samples and the one emitted value of a run. *)
Lemma run_shape_samples r t :
  run_shape r t ->
  exists before after,
    samples t = [before; after]
    /\ emitted t = [Z.max 0 (after - before)].
Proof.
  destruct 1 as [before hc rt its after Hits].
  unfold prologue, epilogue.
  destruct (loop_quiet its Hits) as [Hs He].
  exists before, after. split.
  - rewrite !samples_app, Hs. reflexivity.
  - rewrite !emitted_app, He. reflexivity.
Qed.

(** ** Where an event of a run lies *)

Lemma split_cons {A} (x : A) l pre e post :
  x :: l = pre ++ e :: post ->
  (pre = [] /\ x = e /\ l = post)
  \/ (exists pre', pre = x :: pre' /\ l = pre' ++ e :: post).
Proof.
  destruct pre as [|y pre]; cbn; intros H; injection H as -> ->.
  - now left.
  - right. now exists pre.
Qed.

Lemma split_nil {A} (pre : list A) e post : [] = pre ++ e :: post -> False.
Proof.
  destruct pre; discriminate.
Qed.

(** Splitting a concatenation at an element of it. *)
Lemma app_eq_split {A} (l1 l2 pre post : list A) (e : A) :
  l1 ++ l2 = pre ++ e :: post ->
  (exists mid, l1 = pre ++ e :: mid /\ post = mid ++ l2)
  \/ (exists mid, pre = l1 ++ mid /\ l2 = mid ++ e :: post).
Proof.
  intros H. apply app_eq_app in H. destruct H as [l [[H1 H2]|[H1 H2]]].
  - destruct l as [|x l].
    + right. exists []. cbn in H2. rewrite app_nil_r in H1.
      rewrite app_nil_r. split; [now symmetry | now symmetry].
    + cbn in H2. injection H2 as <- ->. left. now exists l.
  - right. now exists l.
Qed.

(** An event of the loop's trace followed by [tail] is a call to the
    generator at the start of a block, or lies inside a block, or lies in
    [tail]. *)
Lemma loop_position its tail pre e rest :
  loop_trace its ++ tail = pre ++ e :: rest ->
  (exists its1 its2,
      its = its1 ++ its2
      /\ pre = flat_map block its1
      /\ e :: rest = loop_trace its2 ++ tail)
  \/ (exists its1 p bpre bpost its2,
         its = its1 ++ (p, bpre ++ e :: bpost) :: its2
         /\ pre = flat_map block its1 ++ EvNext (Some p) :: bpre
         /\ rest = bpost ++ loop_trace its2 ++ tail)
  \/ (exists mid, pre = loop_trace its ++ mid /\ tail = mid ++ e :: rest).
Proof.
  revert pre. induction its as [|[q b] its IH]; intros pre H.
  - cbn in H. apply split_cons in H.
    destruct H as [(-> & <- & <-)|(pre' & -> & H)].
    + left. exists [], []. split; [|split]; reflexivity.
    + right. right. now exists pre'.
  - rewrite loop_trace_cons in H. cbn in H. apply split_cons in H.
    destruct H as [(-> & <- & <-)|(pre' & -> & H)].
    + left. exists [], ((q, b) :: its). split; [|split]; try reflexivity.
      now rewrite loop_trace_cons.
    + rewrite <- app_assoc in H. apply app_eq_split in H.
      destruct H as [(mid & -> & ->)|(mid & -> & H)].
      * right. left. exists [], q, pre', mid, its.
        split; [|split]; reflexivity.
      * apply IH in H.
        destruct H as [(its1 & its2 & -> & -> & H)
                      |[(its1 & p & bpre & bpost & its2 & -> & -> & ->)
                       |(mid' & -> & ->)]].
        -- left. exists ((q, b) :: its1), its2.
           split; [|split]; [reflexivity| |exact H].
           cbn [flat_map]. unfold block at 2. cbn. reflexivity.
        -- right. left. exists ((q, b) :: its1), p, bpre, bpost, its2.
           split; [|split]; [reflexivity| |reflexivity].
           cbn [flat_map]. unfold block at 2. cbn.
           now rewrite <- app_assoc.
        -- right. right. exists mid'. split; [|reflexivity].
           rewrite loop_trace_cons. cbn. now rewrite <- app_assoc.
Qed.

Lemma attempt_no_next target t :
  attempt target t -> Forall (fun e => is_next e = false) t.
Proof.
  destruct 1; repeat constructor.
Qed.

Lemma iteration_no_next p t :
  iteration p t -> Forall (fun e => is_next e = false) t.
Proof.
  unfold iteration. destruct (in_0_4 (pid p)).
  - intros ->. constructor.
  - apply attempt_no_next.
Qed.

(** An event of a run is one of the six of the prologue and the epilogue,
    or a call to the generator at the start of a block, or lies inside a
    block. *)
Lemma run_position r t pre e rest :
  run_shape r t ->
  t = pre ++ e :: rest ->
  exists before hc rt its after,
    Forall (fun it => iteration (fst it) (snd it)) its
    /\ t = prologue before hc rt ++ loop_trace its ++ epilogue before after
    /\ (In e (prologue before hc rt ++ epilogue before after)
        \/ (exists its1 its2,
               its = its1 ++ its2
               /\ pre = prologue before hc rt ++ flat_map block its1
               /\ e :: rest = loop_trace its2 ++ epilogue before after)
        \/ (exists its1 p bpre bpost its2,
               its = its1 ++ (p, bpre ++ e :: bpost) :: its2
               /\ pre = prologue before hc rt ++ flat_map block its1
                          ++ EvNext (Some p) :: bpre
               /\ rest = bpost ++ loop_trace its2
                           ++ epilogue before after)).
Proof.
  intros Hshape Ht. destruct Hshape as [before hc rt its after Hits].
  exists before, hc, rt, its, after. split; [exact Hits|].
  split; [reflexivity|].
  unfold prologue in Ht at 1. cbn [app] in Ht.
  apply split_cons in Ht. destruct Ht as [(-> & <- & _)|(p1 & -> & Ht)];
    [left; cbn; tauto|].
  apply split_cons in Ht. destruct Ht as [(-> & <- & _)|(p2 & -> & Ht)];
    [left; cbn; tauto|].
  apply split_cons in Ht. destruct Ht as [(-> & <- & _)|(p3 & -> & Ht)];
    [left; cbn; tauto|].
  apply split_cons in Ht. destruct Ht as [(-> & <- & _)|(p4 & -> & Ht)];
    [left; cbn; tauto|].
  apply loop_position in Ht.
  destruct Ht as [(its1 & its2 & -> & -> & H)
                 |[(its1 & p & bpre & bpost & its2 & -> & -> & ->)
                  |(mid & -> & Htail)]].
  - right. left. exists its1, its2. split; [|split]; [reflexivity| |exact H].
    reflexivity.
  - right. right. exists its1, p, bpre, bpost, its2.
    split; [|split]; reflexivity.
  - left. apply in_or_app. right. rewrite Htail.
    apply in_or_app. right. now left.
Qed.

Lemma loop_trace_head its : exists nxt l, loop_trace its = EvNext nxt :: l.
Proof.
  destruct its as [|[p b] its].
  - now exists None, [].
  - rewrite loop_trace_cons. now eexists _, _.
Qed.

Lemma Forall_middle {A} (P : A -> Prop) l1 x l2 :
  Forall P (l1 ++ x :: l2) -> Forall P l1 /\ P x /\ Forall P l2.
Proof.
  intros H. apply Forall_app in H. destruct H as [H1 H2].
  inversion H2; subst. tauto.
Qed.

(** After the generator yields a record, the run makes the calls of that
    record's iteration and then calls the generator again. *)
Lemma yield_block r t pre p rest :
  run_shape r t ->
  t = pre ++ EvNext (Some p) :: rest ->
  exists blk nxt post,
    rest = blk ++ EvNext nxt :: post /\ iteration p blk.
Proof.
  intros Hshape Ht.
  destruct (run_position _ _ _ _ _ Hshape Ht)
    as (before & hc & rt & its & after & Hits & _ & Hpos).
  destruct Hpos as [Hin|[(its1 & its2 & -> & _ & H)
                        |(its1 & q & bpre & bpost & its2 & -> & _ & _)]].
  - cbn in Hin. intuition discriminate.
  - destruct its2 as [|[q b] its2]; [discriminate H|].
    rewrite loop_trace_cons in H. cbn in H. injection H as <- ->.
    apply Forall_middle in Hits. destruct Hits as (_ & Hq & _).
    destruct (loop_trace_head its2) as (nxt & l & ->).
    exists b, nxt, (l ++ epilogue before after). split.
    + now rewrite <- app_assoc.
    + exact Hq.
  - apply Forall_middle in Hits. destruct Hits as (_ & Hq & _).
    cbn [fst snd] in Hq. apply iteration_no_next in Hq.
    apply Forall_middle in Hq. destruct Hq as (_ & Hq & _).
    discriminate Hq.
Qed.

(** ** What the blocks of a run show *)

Lemma in_0_4_true (n : Z) : in_0_4 n = true <-> n = 0 \/ n = 4.
Proof.
  unfold in_0_4. rewrite orb_true_iff, !Z.eqb_eq. tauto.
Qed.

Lemma in_0_4_false (n : Z) : in_0_4 n = false <-> n <> 0 /\ n <> 4.
Proof.
  unfold in_0_4. rewrite orb_false_iff, !Z.eqb_neq. tauto.
Qed.

(** What is observed of the loop is what is observed of its blocks, for an
    observation that ignores the calls to the generator. *)
Lemma loop_observed {B} (f : event -> list B) its :
  (forall r, f (EvNext r) = []) ->
  flat_map f (loop_trace its) = flat_map (fun it => flat_map f (snd it)) its.
Proof.
  intros Hnext. induction its as [|[p b] its IH].
  - cbn. rewrite Hnext. reflexivity.
  - rewrite loop_trace_cons. cbn [flat_map snd].
    rewrite Hnext, flat_map_app, IH. reflexivity.
Qed.

(** The same for the whole run. *)
Lemma run_observed {B} (f : event -> list B) before hc rt its after :
  (forall r, f (EvNext r) = []) ->
  flat_map f (prologue before hc rt ++ loop_trace its
              ++ epilogue before after)
  = flat_map f (prologue before hc rt)
      ++ flat_map (fun it => flat_map f (snd it)) its
      ++ flat_map f (epilogue before after).
Proof.
  intros Hnext. now rewrite !flat_map_app, loop_observed.
Qed.

Lemma Forall_flat_map {A B} (P : B -> Prop) (f : A -> list B) l :
  Forall (fun x => Forall P (f x)) l -> Forall P (flat_map f l).
Proof.
  induction 1 as [|x l Hx _ IH]; cbn.
  - constructor.
  - apply Forall_app. now split.
Qed.

Lemma attempt_targets target t :
  attempt target t -> Forall (fun x => x = target) (targets t).
Proof.
  destruct 1; cbn; repeat constructor.
Qed.

Lemma iteration_targets p t :
  iteration p t -> Forall (fun x => x <> 0 /\ x <> 4) (targets t).
Proof.
  unfold iteration. destruct (in_0_4 (pid p)) eqn:E.
  - intros ->. constructor.
  - intros H. apply attempt_targets in H. apply in_0_4_false in E.
    eapply Forall_impl; [|exact H]. cbn. intros x ->. exact E.
Qed.

Lemma attempt_accesses target t :
  attempt target t ->
  accesses t = [FULL_ACCESS] \/ accesses t = [FULL_ACCESS; LIMITED_ACCESS].
Proof.
  destruct 1; cbn; tauto.
Qed.

Lemma attempt_one_trim target t :
  attempt target t -> (List.length (trimmed t) <= 1)%nat.
Proof.
  destruct 1; cbn; lia.
Qed.

(** ** Handles acquired, trimmed and closed *)

Ltac truthy_rewrite :=
  repeat match goal with
    | H : truthy _ = _ |- _ => rewrite H
    end.

Lemma attempt_closed target t :
  attempt target t -> closed t = acquired t /\ trimmed t = acquired t.
Proof.
  destruct 1; unfold closed, trimmed, acquired; cbn; truthy_rewrite;
    split; reflexivity.
Qed.

Lemma iteration_closed p t :
  iteration p t -> closed t = acquired t /\ trimmed t = acquired t.
Proof.
  unfold iteration. destruct (in_0_4 (pid p)).
  - intros ->. split; reflexivity.
  - apply attempt_closed.
Qed.

Lemma flat_map_ext_Forall {A B} (f g : A -> list B) l :
  Forall (fun x => f x = g x) l -> flat_map f l = flat_map g l.
Proof.
  induction 1 as [|x l Hx _ IH]; cbn; [reflexivity|].
  now rewrite Hx, IH.
Qed.

Lemma held_app t1 t2 : held (t1 ++ t2) = held t1 + held t2.
Proof.
  unfold held, acquired, closed. rewrite !flat_map_app, !length_app. lia.
Qed.

Lemma held_next nxt t : held (EvNext nxt :: t) = held t.
Proof. reflexivity. Qed.

Lemma held_iteration p t : iteration p t -> held t = 0.
Proof.
  intros H. apply iteration_closed in H. destruct H as [H _].
  unfold held. rewrite H. lia.
Qed.

Lemma held_blocks its :
  Forall (fun it => iteration (fst it) (snd it)) its ->
  held (flat_map block its) = 0.
Proof.
  induction 1 as [|[p b] its Hit _ IH]; [reflexivity|].
  cbn [flat_map]. rewrite held_app, IH. unfold block. cbn [fst snd].
  rewrite held_next. apply held_iteration in Hit. cbn in Hit. lia.
Qed.

Lemma held_loop its :
  Forall (fun it => iteration (fst it) (snd it)) its ->
  held (loop_trace its) = 0.
Proof.
  intros H. unfold loop_trace. rewrite held_app, held_blocks by exact H.
  reflexivity.
Qed.

(** Prefixes of a concatenation. *)
Lemma bounded_app t1 t2 :
  (forall n, 0 <= held (firstn n t1) <= 1) ->
  held t1 = 0 ->
  (forall n, 0 <= held (firstn n t2) <= 1) ->
  forall n, 0 <= held (firstn n (t1 ++ t2)) <= 1.
Proof.
  intros H1 Hz H2 n. rewrite firstn_app, held_app.
  destruct (Nat.le_gt_cases (List.length t1) n) as [Hle|Hgt].
  - rewrite firstn_all2 by exact Hle. rewrite Hz.
    specialize (H2 (n - List.length t1)%nat). lia.
  - replace (n - List.length t1)%nat with 0%nat by lia.
    cbn [firstn]. specialize (H1 n). change (held []) with 0. lia.
Qed.

Lemma attempt_bounded target t :
  attempt target t -> forall n, 0 <= held (firstn n t) <= 1.
Proof.
  destruct 1; intros n;
    do 4 (try (destruct n as [|n]));
    unfold held, acquired, closed; cbn; rewrite ?firstn_nil; cbn;
    truthy_rewrite; cbn; lia.
Qed.

Lemma iteration_bounded p t :
  iteration p t -> forall n, 0 <= held (firstn n t) <= 1.
Proof.
  unfold iteration. destruct (in_0_4 (pid p)).
  - intros -> n. rewrite firstn_nil. change (held []) with 0. lia.
  - apply attempt_bounded.
Qed.

Lemma loop_bounded its :
  Forall (fun it => iteration (fst it) (snd it)) its ->
  forall n, 0 <= held (firstn n (loop_trace its)) <= 1.
Proof.
  induction 1 as [|[p b] its Hit Hits IH]; intros n.
  - destruct n as [|[|n]]; cbn; change (held []) with 0;
      rewrite ?held_next; change (held []) with 0; lia.
  - rewrite loop_trace_cons. destruct n as [|n].
    + cbn. change (held []) with 0. lia.
    + cbn [firstn]. rewrite held_next.
      apply bounded_app.
      * now apply iteration_bounded with p.
      * now apply held_iteration with p.
      * exact IH.
Qed.

(** ** Where the calls on other processes lie *)

(** No handle is open when the generator is called. *)
Lemma next_held r t pre nxt rest :
  run_shape r t ->
  t = pre ++ EvNext nxt :: rest ->
  held pre = 0.
Proof.
  intros Hshape Ht.
  destruct (run_position _ _ _ _ _ Hshape Ht)
    as (before & hc & rt & its & after & Hits & _ & Hpos).
  destruct Hpos as [Hin|[(its1 & its2 & -> & -> & _)
                        |(its1 & q & bpre & bpost & its2 & -> & _ & _)]].
  - cbn in Hin. intuition discriminate.
  - apply Forall_app in Hits. destruct Hits as [H1 _].
    rewrite held_app, held_blocks by exact H1. reflexivity.
  - apply Forall_middle in Hits. destruct Hits as (_ & Hq & _).
    cbn [fst snd] in Hq. apply iteration_no_next in Hq.
    apply Forall_middle in Hq. destruct Hq as (_ & Hq & _).
    discriminate Hq.
Qed.

(** A call to [OpenProcess] or [CloseHandle] lies inside the block of a
    record, between the call to the generator that yielded the record,
    before which no handle is open, and the next one. *)
Lemma call_block r t pre e rest :
  run_shape r t ->
  t = pre ++ e :: rest ->
  is_open_or_close e = true ->
  exists pre0 p bpre bpost nxt post,
    pre = pre0 ++ EvNext (Some p) :: bpre
    /\ rest = bpost ++ EvNext nxt :: post
    /\ iteration p (bpre ++ e :: bpost)
    /\ held pre0 = 0.
Proof.
  intros Hshape Ht He.
  destruct (run_position _ _ _ _ _ Hshape Ht)
    as (before & hc & rt & its & after & Hits & _ & Hpos).
  destruct Hpos as [Hin|[(its1 & its2 & -> & _ & H)
                        |(its1 & q & bpre & bpost & its2 & -> & -> & ->)]].
  - cbn in Hin.
    repeat (destruct Hin as [<-|Hin]; [discriminate He|]). contradiction.
  - destruct (loop_trace_head its2) as (nxt & l & Hl).
    rewrite Hl in H. cbn in H. injection H as -> _. discriminate He.
  - apply Forall_middle in Hits. destruct Hits as (H1 & Hq & _).
    destruct (loop_trace_head its2) as (nxt & l & ->).
    exists (prologue before hc rt ++ flat_map block its1), q, bpre, bpost,
      nxt, (l ++ epilogue before after).
    split; [|split; [|split]].
    + now rewrite <- app_assoc.
    + reflexivity.
    + exact Hq.
    + rewrite held_app, held_blocks by exact H1. reflexivity.
Qed.

(** Finding an element in a list that is written out. *)
Ltac where_in H :=
  lazymatch type of H with
  | [] = _ ++ _ :: _ => apply split_nil in H; contradiction
  | _ :: _ = _ ++ _ :: _ =>
      let E := fresh "E" in
      let pre' := fresh "pre" in
      apply split_cons in H;
      destruct H as [(-> & E & <-)|(pre' & -> & H)];
      [ try discriminate E | where_in H ]
  end.

(** In an attempt, a successful [OpenProcess] is followed by the trim and
    the close of the handle it returned, and by nothing else. *)
Lemma attempt_after_open target bpre access inherit tg h bpost :
  attempt target (bpre ++ EvOpenProcess access inherit tg (Ok h) :: bpost) ->
  truthy h = true ->
  acquired bpre = []
  /\ exists r c, bpost = [EvEmptyWorkingSet h r; EvCloseHandle h c].
Proof.
  intros Hatt Hh.
  remember (bpre ++ EvOpenProcess access inherit tg (Ok h) :: bpost)
    as blk eqn:Hblk.
  destruct Hatt; where_in Hblk;
    injection E as <- <- <- <-; try congruence;
    unfold acquired; cbn; truthy_rewrite;
    (split; [reflexivity|]); eexists _, _; reflexivity.
Qed.

(** In an attempt, [CloseHandle] comes last, after the acquisition and the
    trim of the handle it closes. *)
Lemma attempt_before_close target bpre h c bpost :
  attempt target (bpre ++ EvCloseHandle h c :: bpost) ->
  bpost = []
  /\ truthy h = true
  /\ acquired bpre = [h]
  /\ closed bpre = []
  /\ exists opens access r,
       bpre = opens ++ [EvOpenProcess access false target (Ok h);
                        EvEmptyWorkingSet h r]
       /\ acquired opens = [].
Proof.
  intros Hatt.
  remember (bpre ++ EvCloseHandle h c :: bpost) as blk eqn:Hblk.
  destruct Hatt; where_in Hblk; injection E as <- <-;
    (split; [reflexivity|]); (split; [assumption|]);
    unfold acquired, closed; cbn; truthy_rewrite;
    (split; [reflexivity|]); (split; [reflexivity|]).
  - exists [], FULL_ACCESS, r. split; reflexivity.
  - exists [EvOpenProcess FULL_ACCESS false target (Ok h1)],
      LIMITED_ACCESS, r.
    split; [reflexivity|]. cbn. now truthy_rewrite.
Qed.

(** In an attempt, the limited mask is asked for right after the full mask
    returned no handle. *)
Lemma attempt_before_limited target bpre inherit tg r bpost :
  attempt target
    (bpre ++ EvOpenProcess LIMITED_ACCESS inherit tg r :: bpost) ->
  exists h1,
    bpre = [EvOpenProcess FULL_ACCESS false tg (Ok h1)]
    /\ truthy h1 = false.
Proof.
  intros Hatt.
  remember (bpre ++ EvOpenProcess LIMITED_ACCESS inherit tg r :: bpost)
    as blk eqn:Hblk.
  destruct Hatt; where_in Hblk;
    try (injection E as E1 _ _ _; discriminate E1);
    injection E as <- <- <-; eexists; split; try reflexivity; assumption.
Qed.

(** ** The engine when nothing raises outside the handlers *)

Lemma or_raise_quiet {World A} (fault : World -> option (PyException * World))
    (m : M World A) :
  (forall w, fault w = None) ->
  forall s, or_raise fault m s = m s.
Proof.
  intros H s. unfold or_raise. now rewrite H.
Qed.

Lemma bind_ext {World A B} (m m' : M World A) (f f' : A -> M World B) :
  (forall s, m s = m' s) ->
  (forall a s, f a s = f' a s) ->
  forall s, bind m f s = bind m' f' s.
Proof.
  intros Hm Hf s. unfold bind. rewrite Hm.
  destruct (m' s) as [[[a|e] s1] t1]; [now rewrite Hf | reflexivity].
Qed.

Lemma try_finally_ext {World} (body body' fin fin' : M World unit) :
  (forall s, body s = body' s) ->
  (forall s, fin s = fin' s) ->
  forall s, try_finally body fin s = try_finally body' fin' s.
Proof.
  intros Hb Hf s. unfold try_finally. rewrite Hb.
  destruct (body' s) as [[r1 s1] t1]. now rewrite Hf.
Qed.

Lemma for_in_ext {World} (g : generator World)
    (body body' : ProcessRecord -> M World unit) :
  (forall p s, body p s = body' p s) ->
  forall s, for_in g body s = for_in g body' s.
Proof.
  intros Hb. induction g as [|p rest IH]; intros s; cbn [for_in].
  - reflexivity.
  - rewrite Hb. destruct (body' p s) as [[[u|e] s1] t1]; [|reflexivity].
    now rewrite IH.
Qed.

Lemma for_in_faulty_quiet {World}
    (fault : World -> option (PyException * World)) (g : generator World)
    (body : ProcessRecord -> M World unit) :
  (forall w, fault w = None) ->
  forall s, for_in_faulty fault g body s = for_in g body s.
Proof.
  intros H. induction g as [|p rest IH]; intros s; cbn [for_in_faulty for_in];
    rewrite H.
  - reflexivity.
  - destruct (body p s) as [[[u|e] s1] t1]; [|reflexivity].
    now rewrite IH.
Qed.

(** When [CloseHandle] does not raise, the loop body is that of [V3]. *)
Lemma V3F_loop_body_quiet {World} (host : Host World)
    (faults : Faults World) :
  (forall h w, fault_close faults h w = None) ->
  forall p s, V3F.loop_body host faults p s = V3.loop_body host p s.
Proof.
  intros Hc p s. unfold V3F.loop_body, V3.loop_body.
  destruct (in_0_4 (pid p)); [reflexivity|].
  apply bind_ext; [reflexivity|]. intros _ s1.
  apply try_finally_ext; [reflexivity|]. intros s2.
  apply bind_ext; [reflexivity|]. intros h s3.
  destruct (truthy h); [|reflexivity].
  apply bind_ext; [|reflexivity]. intros s4.
  unfold V3F.CloseHandle. now apply or_raise_quiet.
Qed.

(** When none of the five calls raises, the run is that of [V3]. *)
Lemma V3F_run_quiet {World} (host : Host World) (faults : Faults World) :
  (forall w, fault_available faults w = None) ->
  (forall w, fault_collect faults w = None) ->
  (forall w, fault_next faults w = None) ->
  (forall h w, fault_close faults h w = None) ->
  (forall v w, fault_emit faults v w = None) ->
  forall s, V3F.run host faults s = V3.run host s.
Proof.
  intros Ha Hg Hn Hc He s. unfold V3F.run, V3.run.
  apply bind_ext.
  { intros s1. unfold V3F.virtual_memory_available.
    now apply or_raise_quiet. }
  intros before s1. apply bind_ext.
  { intros s2. unfold V3F.gc_collect. now apply or_raise_quiet. }
  intros _ s2. apply bind_ext; [reflexivity|].
  intros _ s3. apply bind_ext.
  { intros s4. unfold V3F.for_process_iter, V3.for_process_iter.
    rewrite for_in_faulty_quiet by exact Hn.
    apply for_in_ext. now apply V3F_loop_body_quiet. }
  intros _ s4. apply bind_ext.
  { intros s5. unfold V3F.virtual_memory_available.
    now apply or_raise_quiet. }
  intros after s5. unfold V3F.emit. now apply or_raise_quiet.
Qed.

Lemma V1F_run_V3F {World} (host : Host World) (faults : Faults World) :
  V1F.run host faults = V3F.run host faults.
Proof. reflexivity. Qed.

Lemma run_faulty_quiet {World} (v : variant) (host : Host World)
    (faults : Faults World) :
  (forall w, fault_available faults w = None) ->
  (forall w, fault_collect faults w = None) ->
  (forall w, fault_next faults w = None) ->
  (forall h w, fault_close faults h w = None) ->
  (forall x w, fault_emit faults x w = None) ->
  forall s, run_faulty_of v host faults s = run_of v host s.
Proof.
  intros Ha Hg Hn Hc He s. destruct v; cbn [run_faulty_of run_of].
  - rewrite V1F_run_V3F, V1_run_V3. now apply V3F_run_quiet.
  - now apply V3F_run_quiet.
Qed.

(** [V1.run] and [V3.run] are the engine on a host where nothing raises
    outside the handlers. *)
Lemma run_is_run_without_faults {World} (v : variant) (host : Host World)
    (s : frame World) :
  run_of v host s = run_faulty_of v host no_faults s.
Proof.
  symmetry. apply run_faulty_quiet; reflexivity.
Qed.

Lemma int32_in_range (z : Z) : - 2 ^ 31 <= z < 2 ^ 31 -> int32 z = z.
Proof.
  intros H. unfold int32. rewrite Z.mod_small; lia.
Qed.

Lemma int32_bounds (z : Z) : - 2 ^ 31 <= int32 z < 2 ^ 31.
Proof.
  unfold int32. pose proof (Z.mod_pos_bound (z + 2 ^ 31) (2 ^ 32)). lia.
Qed.

(** ** Properties of a run *)

(** What a run hands to [emit] and what it reports.  A run takes two
    samples [before] and [after] and hands [emit] one value, the maximum of
    0 and [after - before].  Its listeners receive that value as a C
    [int]: the value itself, never negative, as long as
    [after - before < 2 ^ 31]. *)
Lemma reported_is_wrapped_clamped_delta {World} (v : variant)
    (host : Host World) (w : World) :
  exists before after,
    samples (trace_of (run_of v host) w) = [before; after]
    /\ emitted (trace_of (run_of v host) w) = [Z.max 0 (after - before)]
    /\ reported (trace_of (run_of v host) w)
       = [int32 (Z.max 0 (after - before))]
    /\ (after - before < 2 ^ 31 ->
        reported (trace_of (run_of v host) w) = [Z.max 0 (after - before)]
        /\ 0 <= Z.max 0 (after - before)).
Proof.
  destruct (run_shape_samples _ _ (run_of_shape v host w))
    as (before & after & Hs & He).
  exists before, after. split; [exact Hs|]. split; [exact He|].
  unfold reported. rewrite He. cbn [map]. unfold signal_payload.
  split; [reflexivity|]. intros Hlt.
  rewrite int32_in_range by lia. split; [reflexivity | lia].
Qed.

(** C1.  In [app_V1.py] and in [app_V3.py] alike, on a host whose
    available memory goes from 1,000,000,000 to 4,000,000,000 bytes during
    the run, the run hands 3,000,000,000 to [emit], and what its listeners
    receive through the [Signal(int)] is -1,294,967,296: not the
    difference of the samples, and negative. *)
Theorem reported_freed_bytes_wraps_from_2_31 :
  samples
    (trace_of (run_faulty_of app_V1 (demo_host 3000000000 []) no_faults)
       1000000000) = [1000000000; 4000000000]
  /\ emitted
       (trace_of (run_faulty_of app_V1 (demo_host 3000000000 []) no_faults)
          1000000000) = [3000000000]
  /\ reported
       (trace_of (run_faulty_of app_V1 (demo_host 3000000000 []) no_faults)
          1000000000) = [-1294967296]
  /\ samples
       (trace_of (run_faulty_of app_V3 (demo_host 3000000000 []) no_faults)
          1000000000) = [1000000000; 4000000000]
  /\ emitted
       (trace_of (run_faulty_of app_V3 (demo_host 3000000000 []) no_faults)
          1000000000) = [3000000000]
  /\ reported
       (trace_of (run_faulty_of app_V3 (demo_host 3000000000 []) no_faults)
          1000000000) = [-1294967296].
Proof.
  repeat split; vm_compute; reflexivity.
Qed.

(** The two scenarios of the specification, on a host where the self-trim
    makes 300,000,000 bytes available, and on one where 50,000,000 bytes
    are consumed meanwhile. *)
Example scenario_gain (v : variant) :
  samples (trace_of (run_of v (demo_host 300000000 [])) 2000000000)
  = [2000000000; 2300000000]
  /\ emitted (trace_of (run_of v (demo_host 300000000 [])) 2000000000)
     = [300000000].
Proof. destruct v; split; reflexivity. Qed.

Example scenario_loss (v : variant) :
  samples (trace_of (run_of v (demo_host (-50000000) [])) 2000000000)
  = [2000000000; 1950000000]
  /\ emitted (trace_of (run_of v (demo_host (-50000000) [])) 2000000000)
     = [0].
Proof. destruct v; split; reflexivity. Qed.





(** C8.  The two variants are the same engine: on the same host, from the
    same state, [run] of [app_V1.py] and [run] of [app_V3.py] end with the
    same outcome in the same state after the same calls, and emit the same
    value. *)
Theorem variants_equivalent {World} (host : Host World) (s : frame World) :
  V1.run host s = V3.run host s
  /\ snd (V1.run host s) = snd (V3.run host s)
  /\ emitted (snd (V1.run host s)) = emitted (snd (V3.run host s)).
Proof.
  repeat split; reflexivity.
Qed.

(** C9.  The emitted value is a function of the two samples: two runs, of
    either variant, on any two hosts, with the same samples emit the same
    value, whatever was enumerated, acquired or trimmed.  A run whose
    enumeration is empty emits the clamped difference all the same, and
    that need not be 0. *)
Theorem freed_bytes_depends_only_on_samples :
  (forall (W1 W2 : Type) (v1 v2 : variant) (host1 : Host W1)
          (host2 : Host W2) (w1 : W1) (w2 : W2),
      samples (trace_of (run_of v1 host1) w1)
      = samples (trace_of (run_of v2 host2) w2) ->
      emitted (trace_of (run_of v1 host1) w1)
      = emitted (trace_of (run_of v2 host2) w2))
  /\ (forall v : variant,
        enumerated (trace_of (run_of v (demo_host 4096 [])) 1000) = []
        /\ samples (trace_of (run_of v (demo_host 4096 [])) 1000)
           = [1000; 5096]
        /\ emitted (trace_of (run_of v (demo_host 4096 [])) 1000)
           = [Z.max 0 (5096 - 1000)]
        /\ Z.max 0 (5096 - 1000) <> 0).
Proof.
  split.
  - intros W1 W2 v1 v2 host1 host2 w1 w2 Heq.
    destruct (run_shape_samples _ _ (run_of_shape v1 host1 w1))
      as (b1 & a1 & Hs1 & He1).
    destruct (run_shape_samples _ _ (run_of_shape v2 host2 w2))
      as (b2 & a2 & Hs2 & He2).
    rewrite Hs1, Hs2 in Heq. injection Heq as -> ->.
    now rewrite He1, He2.
  - intros v. destruct v; repeat split; try reflexivity; discriminate.
Qed.

Lemma freed_bytes_depends_only_on_samples_witness :
  emitted (trace_of (run_of app_V1 (demo_host 4096 [])) 1000)
  = emitted (trace_of (run_of app_V3
                         (demo_host 2048 [proc 0; proc 100; proc 300]))
               1000).
Proof.
  exact (proj1 freed_bytes_depends_only_on_samples Z Z app_V1 app_V3
           (demo_host 4096 []) (demo_host 2048 [proc 0; proc 100; proc 300])
           1000 1000 eq_refl).
Defined.

(** C6, as the code has it.  Whatever [OpenProcess] and [EmptyWorkingSet]
    return or raise, for the engine's own process or for any other, a run
    in which the sampler, [gc.collect()], the generator, [CloseHandle] and
    [emit] do not raise completes, and the last thing it does is to hand
    [emit] one value, the only one: the maximum of 0 and [after - before].
    That value is 0 exactly when [after <= before], whether or not any
    acquisition succeeded, and it is what the listeners receive as long as
    [after - before < 2 ^ 31]. *)
Theorem run_completes_when_outside_calls_return {World} (v : variant)
    (host : Host World) (faults : Faults World) (w : World) :
  (forall w, fault_available faults w = None) ->
  (forall w, fault_collect faults w = None) ->
  (forall w, fault_next faults w = None) ->
  (forall h w, fault_close faults h w = None) ->
  (forall x w, fault_emit faults x w = None) ->
  outcome_of (run_faulty_of v host faults) w = Ok tt
  /\ exists before after body,
       trace_of (run_faulty_of v host faults) w
       = EvVirtualMemory before :: body
           ++ [EvVirtualMemory after; EvEmit (Z.max 0 (after - before))]
       /\ emitted body = []
       /\ emitted (trace_of (run_faulty_of v host faults) w)
          = [Z.max 0 (after - before)]
       /\ (Z.max 0 (after - before) = 0 <-> after <= before)
       /\ (after - before < 2 ^ 31 ->
           reported (trace_of (run_faulty_of v host faults) w)
           = [Z.max 0 (after - before)]).
Proof.
  intros Ha Hg Hn Hc He. unfold outcome_of, trace_of.
  rewrite (run_faulty_quiet v host faults Ha Hg Hn Hc He).
  change (fst (fst (run_of v host (start w))))
    with (outcome_of (run_of v host) w).
  change (snd (run_of v host (start w))) with (trace_of (run_of v host) w).
  destruct (run_of_shape v host w) as [before hc rt its after Hits].
  unfold prologue, epilogue.
  split; [reflexivity|].
  destruct (loop_quiet its Hits) as [_ Hq].
  exists before, after,
    ([EvGcCollect; EvGetCurrentProcess hc; EvEmptyWorkingSet hc rt]
     ++ loop_trace its).
  split; [reflexivity|]. split; [|split; [|split]].
  - now rewrite emitted_app, Hq.
  - rewrite !emitted_app, Hq. reflexivity.
  - lia.
  - intros Hlt. unfold reported. rewrite !emitted_app, Hq. cbn.
    unfold signal_payload. now rewrite int32_in_range by lia.
Qed.

(** On the concrete host with nothing raising outside the handlers: one
    process refuses both tiers, the trim of the other raises. *)
Lemma run_completes_when_outside_calls_return_witness :
  outcome_of
    (run_faulty_of app_V3 (demo_host 4096 [proc 300; proc 500]) no_faults)
    1000 = Ok tt
  /\ emitted
       (trace_of
          (run_faulty_of app_V3 (demo_host 4096 [proc 300; proc 500])
             no_faults) 1000) = [4096].
Proof.
  destruct (run_completes_when_outside_calls_return app_V3
              (demo_host 4096 [proc 300; proc 500]) no_faults 1000
              (fun _ => eq_refl) (fun _ => eq_refl) (fun _ => eq_refl)
              (fun _ _ => eq_refl) (fun _ _ => eq_refl))
    as (Hok & _).
  split; [exact Hok | reflexivity].
Defined.

(** C6, as the specification has it, fails twice.  When [gc.collect()]
    raises, nothing catches the exception: the run ends with it after the
    first sample, and emits nothing.  And on a host where nothing raises,
    the one other process refuses both tiers and the self-trim makes 4096
    bytes available, the run completes, acquires nothing, and reports
    4096. *)
Lemma gc_failure_aborts_and_all_refused_reports_nonzero :
  outcome_of (V3F.run (demo_host 4096 [proc 100]) (gc_fails (OSError 8)))
    1000 = Err (OSError 8)
  /\ trace_of (V3F.run (demo_host 4096 [proc 100]) (gc_fails (OSError 8)))
       1000 = [EvVirtualMemory 1000]
  /\ emitted
       (trace_of (V3F.run (demo_host 4096 [proc 100])
                    (gc_fails (OSError 8))) 1000) = []
  /\ outcome_of (V3F.run (demo_host 4096 [proc 300]) no_faults) 1000 = Ok tt
  /\ targets (trace_of (V3F.run (demo_host 4096 [proc 300]) no_faults) 1000)
     = [300; 300]
  /\ acquired (trace_of (V3F.run (demo_host 4096 [proc 300]) no_faults) 1000)
     = []
  /\ emitted (trace_of (V3F.run (demo_host 4096 [proc 300]) no_faults) 1000)
     = [4096]
  /\ reported (trace_of (V3F.run (demo_host 4096 [proc 300]) no_faults) 1000)
     = [4096]
  /\ 4096 <> 0.
Proof.
  repeat split; try (vm_compute; reflexivity). discriminate.
Qed.

(** C2.  [OpenProcess] is never called on process 0 or 4; and when the
    generator yields a record whose identifier is 0 or 4, the next thing
    the run does is to call the generator again: no acquisition, no trim,
    no close for that record. *)
Theorem system_pids_never_targeted {World} (v : variant)
    (host : Host World) (w : World) :
  Forall (fun target => target <> 0 /\ target <> 4)
    (targets (trace_of (run_of v host) w))
  /\ (forall pre p rest,
         trace_of (run_of v host) w = pre ++ EvNext (Some p) :: rest ->
         pid p = 0 \/ pid p = 4 ->
         exists nxt post, rest = EvNext nxt :: post).
Proof.
  split.
  - destruct (run_of_shape v host w) as [before hc rt its after Hits].
    unfold targets. rewrite run_observed by reflexivity.
    cbn [prologue epilogue flat_map target_of app]. rewrite app_nil_r.
    apply Forall_flat_map.
    eapply Forall_impl; [|exact Hits].
    intros [p b]. apply iteration_targets.
  - intros pre p rest Ht Hp.
    destruct (yield_block _ _ _ _ _ (run_of_shape v host w) Ht)
      as (blk & nxt & post & -> & Hit).
    unfold iteration in Hit. apply in_0_4_true in Hp. rewrite Hp in Hit.
    subst blk. now exists nxt, post.
Qed.

Lemma system_pids_never_targeted_witness :
  exists nxt post,
    [EvNext (Some (proc 4)); EvNext (Some (proc 100));
     EvOpenProcess FULL_ACCESS false 100 (Ok (Some 101));
     EvEmptyWorkingSet (Some 101) (Ok 1); EvCloseHandle (Some 101) 1;
     EvNext None; EvVirtualMemory 9192; EvEmit 8192]
    = EvNext nxt :: post.
Proof.
  apply (proj2 (system_pids_never_targeted app_V1
                  (demo_host 4096 [proc 0; proc 4; proc 100]) 1000)
           (prologue 1000 (Some pseudo_handle) (Ok 1)) (proc 0)).
  - reflexivity.
  - left. reflexivity.
Defined.

(** The two masks are those of lines 57 and 59 of [app_V3.py] (63 and 66
    of [app_V1.py]). *)
Lemma access_masks :
  FULL_ACCESS = Z.lor V1.PROCESS_QUERY_INFORMATION V1.PROCESS_SET_QUOTA
  /\ LIMITED_ACCESS
     = Z.lor V1.PROCESS_QUERY_LIMITED_INFORMATION V1.PROCESS_SET_QUOTA
  /\ FULL_ACCESS = Z.lor V3.PROCESS_QUERY_INFORMATION V3.PROCESS_SET_QUOTA
  /\ LIMITED_ACCESS
     = Z.lor V3.PROCESS_QUERY_LIMITED_INFORMATION V3.PROCESS_SET_QUOTA.
Proof. repeat split; reflexivity. Qed.

(** C4.  When the generator yields a record whose identifier is not 0 or
    4, what the run does before it calls the generator again is one
    [attempt]: [OpenProcess] with the full mask first; [OpenProcess] with
    the limited mask only if the first returned no handle; nothing more if
    that returned none either or if a call raised; otherwise one trim and
    one close.  So each record gets one or two [OpenProcess] calls, in that
    order, and at most one [EmptyWorkingSet]. *)
Theorem one_tier_cascade_per_process {World} (v : variant)
    (host : Host World) (w : World) pre p rest :
  trace_of (run_of v host) w = pre ++ EvNext (Some p) :: rest ->
  pid p <> 0 ->
  pid p <> 4 ->
  exists blk nxt post,
    rest = blk ++ EvNext nxt :: post
    /\ attempt (pid p) blk
    /\ (accesses blk = [FULL_ACCESS]
        \/ accesses blk = [FULL_ACCESS; LIMITED_ACCESS])
    /\ (List.length (trimmed blk) <= 1)%nat.
Proof.
  intros Ht H0 H4.
  destruct (yield_block _ _ _ _ _ (run_of_shape v host w) Ht)
    as (blk & nxt & post & -> & Hit).
  unfold iteration in Hit.
  assert (E : in_0_4 (pid p) = false) by (apply in_0_4_false; tauto).
  rewrite E in Hit.
  exists blk, nxt, post. split; [reflexivity|]. split; [exact Hit|].
  split; [now apply attempt_accesses with (pid p)|].
  now apply attempt_one_trim with (pid p).
Qed.

Lemma one_tier_cascade_per_process_witness :
  exists blk nxt post,
    [EvOpenProcess FULL_ACCESS false 200 (Ok None);
     EvOpenProcess LIMITED_ACCESS false 200 (Ok (Some 201));
     EvEmptyWorkingSet (Some 201) (Ok 1); EvCloseHandle (Some 201) 1;
     EvNext (Some (proc 300));
     EvOpenProcess FULL_ACCESS false 300 (Ok None);
     EvOpenProcess LIMITED_ACCESS false 300 (Ok None);
     EvNext None; EvVirtualMemory 9192; EvEmit 8192]
    = blk ++ EvNext nxt :: post
    /\ attempt 200 blk
    /\ (accesses blk = [FULL_ACCESS]
        \/ accesses blk = [FULL_ACCESS; LIMITED_ACCESS])
    /\ (List.length (trimmed blk) <= 1)%nat.
Proof.
  apply (one_tier_cascade_per_process app_V3
           (demo_host 4096 [proc 200; proc 300]) 1000
           (prologue 1000 (Some pseudo_handle) (Ok 1)) (proc 200)).
  - reflexivity.
  - discriminate.
  - discriminate.
Defined.

(** C3.  After every [OpenProcess] that returns a handle, at either tier,
    the run calls [EmptyWorkingSet] on that handle, then, whether the trim
    returned non-zero, returned zero or raised, [CloseHandle] on that
    handle, and then calls the generator again.  Every [CloseHandle] is
    such a close, with the end of the iteration right behind it.  So over
    the whole run the handles closed are the handles acquired, one close
    each, and the handles trimmed are that of the engine's own process and
    then the handles acquired, one trim each. *)
Theorem acquired_handle_closed_exactly_once {World} (v : variant)
    (host : Host World) (w : World) :
  (forall pre access inherit target h rest,
      trace_of (run_of v host) w
      = pre ++ EvOpenProcess access inherit target (Ok h) :: rest ->
      truthy h = true ->
      exists r c nxt post,
        rest = EvEmptyWorkingSet h r :: EvCloseHandle h c
                 :: EvNext nxt :: post)
  /\ (forall pre h c rest,
        trace_of (run_of v host) w = pre ++ EvCloseHandle h c :: rest ->
        truthy h = true
        /\ (exists pre' access target r,
               pre = pre' ++ [EvOpenProcess access false target (Ok h);
                              EvEmptyWorkingSet h r])
        /\ exists nxt post, rest = EvNext nxt :: post)
  /\ closed (trace_of (run_of v host) w)
     = acquired (trace_of (run_of v host) w)
  /\ exists hc,
       trimmed (trace_of (run_of v host) w)
       = hc :: acquired (trace_of (run_of v host) w).
Proof.
  pose proof (run_of_shape v host w) as Hshape.
  split; [|split; [|split]].
  - intros pre access inherit target h rest Ht Hh.
    destruct (call_block _ _ _ _ _ Hshape Ht eq_refl)
      as (pre0 & p & bpre & bpost & nxt & post & -> & -> & Hit & _).
    unfold iteration in Hit. destruct (in_0_4 (pid p)).
    + symmetry in Hit. now apply split_nil in Hit.
    + destruct (attempt_after_open _ _ _ _ _ _ _ Hit Hh)
        as (_ & r & c & ->).
      now exists r, c, nxt, post.
  - intros pre h c rest Ht.
    destruct (call_block _ _ _ _ _ Hshape Ht eq_refl)
      as (pre0 & p & bpre & bpost & nxt & post & -> & -> & Hit & _).
    unfold iteration in Hit. destruct (in_0_4 (pid p)).
    + symmetry in Hit. now apply split_nil in Hit.
    + destruct (attempt_before_close _ _ _ _ _ Hit)
        as (-> & Hh & _ & _ & opens & access & r & -> & _).
      split; [exact Hh|]. split.
      * exists (pre0 ++ EvNext (Some p) :: opens), access, (pid p), r.
        rewrite <- app_assoc. reflexivity.
      * now exists nxt, post.
  - destruct Hshape as [before hc rt its after Hits].
    unfold closed, acquired. rewrite !run_observed by reflexivity.
    cbn [prologue epilogue flat_map closing_of acquisition_of app].
    f_equal. apply flat_map_ext_Forall.
    eapply Forall_impl; [|exact Hits].
    intros [p b] Hit. now apply iteration_closed in Hit.
  - destruct Hshape as [before hc rt its after Hits].
    exists hc.
    unfold trimmed, acquired. rewrite !run_observed by reflexivity.
    cbn [prologue epilogue flat_map trimming_of acquisition_of app].
    do 2 f_equal. apply flat_map_ext_Forall.
    eapply Forall_impl; [|exact Hits].
    intros [p b] Hit. now apply iteration_closed in Hit.
Qed.

(** On the concrete host, process 500 opens at the first tier and its trim
    raises: the handle is closed all the same. *)
Lemma acquired_handle_closed_exactly_once_witness :
  exists r c nxt post,
    [EvEmptyWorkingSet (Some 501) (Err (OSError 6));
     EvCloseHandle (Some 501) 1; EvNext None;
     EvVirtualMemory 5096; EvEmit 4096]
    = EvEmptyWorkingSet (Some 501) r :: EvCloseHandle (Some 501) c
        :: EvNext nxt :: post.
Proof.
  apply (proj1 (acquired_handle_closed_exactly_once app_V3
                  (demo_host 4096 [proc 500]) 1000)
           (prologue 1000 (Some pseudo_handle) (Ok 1)
            ++ [EvNext (Some (proc 500))])
           FULL_ACCESS false 500 (Some 501)).
  - reflexivity.
  - reflexivity.
Defined.

(** The exits of an iteration, on the concrete host: a trim that succeeds
    (process 100), one that raises (500) and one that is refused (600) are
    each followed by the close of the handle; a refusal at both tiers
    (300) and an acquisition that raises (400) by no close. *)
Example exit_paths (v : variant) :
  trace_of (run_of v (demo_host 4096 demo_procs)) 1000
  = prologue 1000 (Some pseudo_handle) (Ok 1)
    ++ [EvNext (Some (proc 0));
        EvNext (Some (proc 4));
        EvNext (Some (proc 100));
        EvOpenProcess FULL_ACCESS false 100 (Ok (Some 101));
        EvEmptyWorkingSet (Some 101) (Ok 1); EvCloseHandle (Some 101) 1;
        EvNext (Some (proc 200));
        EvOpenProcess FULL_ACCESS false 200 (Ok None);
        EvOpenProcess LIMITED_ACCESS false 200 (Ok (Some 201));
        EvEmptyWorkingSet (Some 201) (Ok 1); EvCloseHandle (Some 201) 1;
        EvNext (Some (proc 300));
        EvOpenProcess FULL_ACCESS false 300 (Ok None);
        EvOpenProcess LIMITED_ACCESS false 300 (Ok None);
        EvNext (Some (proc 400));
        EvOpenProcess FULL_ACCESS false 400 (Err (OSError 5));
        EvNext (Some (proc 500));
        EvOpenProcess FULL_ACCESS false 500 (Ok (Some 501));
        EvEmptyWorkingSet (Some 501) (Err (OSError 6));
        EvCloseHandle (Some 501) 1;
        EvNext (Some (proc 600));
        EvOpenProcess FULL_ACCESS false 600 (Ok (Some 601));
        EvEmptyWorkingSet (Some 601) (Ok 0); EvCloseHandle (Some 601) 1;
        EvNext None]
    ++ epilogue 1000 13288.
Proof. destruct v; reflexivity. Qed.

Lemma prologue_bounded before hc rt n :
  0 <= held (firstn n (prologue before hc rt)) <= 1.
Proof.
  do 4 (try (destruct n as [|n])); unfold held; cbn; rewrite ?firstn_nil;
    cbn; lia.
Qed.

Lemma epilogue_bounded before after n :
  0 <= held (firstn n (epilogue before after)) <= 1.
Proof.
  do 2 (try (destruct n as [|n])); unfold held; cbn; rewrite ?firstn_nil;
    cbn; lia.
Qed.

(** C10.  At every point of a run at most one handle of another process is
    open.  The limited mask is asked for only right after the full mask
    returned no handle for the same process, while none is open.
    [CloseHandle] is called only on the one handle acquired since the
    generator last yielded, not closed yet.  And whenever the generator is
    called, no handle is open. *)
Theorem at_most_one_handle_open {World} (v : variant)
    (host : Host World) (w : World) :
  (forall n, 0 <= held (firstn n (trace_of (run_of v host) w)) <= 1)
  /\ (forall pre inherit target r rest,
        trace_of (run_of v host) w
        = pre ++ EvOpenProcess LIMITED_ACCESS inherit target r :: rest ->
        held pre = 0
        /\ exists pre' h1,
             pre = pre' ++ [EvOpenProcess FULL_ACCESS false target (Ok h1)]
             /\ truthy h1 = false)
  /\ (forall pre h c rest,
        trace_of (run_of v host) w = pre ++ EvCloseHandle h c :: rest ->
        held pre = 1
        /\ exists pre0 p bpre,
             pre = pre0 ++ EvNext (Some p) :: bpre
             /\ Forall (fun e => is_next e = false) bpre
             /\ acquired bpre = [h]
             /\ closed bpre = [])
  /\ (forall pre nxt rest,
        trace_of (run_of v host) w = pre ++ EvNext nxt :: rest ->
        held pre = 0).
Proof.
  pose proof (run_of_shape v host w) as Hshape.
  split; [|split; [|split]].
  - destruct Hshape as [before hc rt its after Hits].
    apply bounded_app; [apply prologue_bounded | reflexivity |].
    apply bounded_app;
      [now apply loop_bounded | now apply held_loop
      | apply epilogue_bounded].
  - intros pre inherit target r rest Ht.
    destruct (call_block _ _ _ _ _ Hshape Ht eq_refl)
      as (pre0 & p & bpre & bpost & nxt & post & -> & -> & Hit & Hz).
    unfold iteration in Hit. destruct (in_0_4 (pid p)).
    + symmetry in Hit. now apply split_nil in Hit.
    + destruct (attempt_before_limited _ _ _ _ _ _ Hit) as (h1 & -> & Hh1).
      split.
      * rewrite held_app, Hz, held_next. unfold held, acquired, closed.
        cbn. rewrite Hh1. reflexivity.
      * exists (pre0 ++ [EvNext (Some p)]), h1. split; [|exact Hh1].
        now rewrite <- app_assoc.
  - intros pre h c rest Ht.
    destruct (call_block _ _ _ _ _ Hshape Ht eq_refl)
      as (pre0 & p & bpre & bpost & nxt & post & -> & -> & Hit & Hz).
    pose proof (iteration_no_next _ _ Hit) as Hnn.
    apply Forall_middle in Hnn. destruct Hnn as (Hnn & _ & _).
    unfold iteration in Hit. destruct (in_0_4 (pid p)).
    + symmetry in Hit. now apply split_nil in Hit.
    + destruct (attempt_before_close _ _ _ _ _ Hit)
        as (_ & _ & Hacq & Hcl & _).
      split.
      * rewrite held_app, Hz, held_next. unfold held.
        rewrite Hacq, Hcl. reflexivity.
      * now exists pre0, p, bpre.
  - intros pre nxt rest Ht. now apply next_held with (1 := Hshape) in Ht.
Qed.

(** On the concrete host, process 200 opens at the second tier only. *)
Lemma at_most_one_handle_open_witness :
  held (prologue 1000 (Some pseudo_handle) (Ok 1)
        ++ [EvNext (Some (proc 200));
            EvOpenProcess FULL_ACCESS false 200 (Ok None)]) = 0
  /\ exists pre' h1,
       prologue 1000 (Some pseudo_handle) (Ok 1)
       ++ [EvNext (Some (proc 200));
           EvOpenProcess FULL_ACCESS false 200 (Ok None)]
       = pre' ++ [EvOpenProcess FULL_ACCESS false 200 (Ok h1)]
       /\ truthy h1 = false.
Proof.
  apply (proj1 (proj2 (at_most_one_handle_open app_V1
                         (demo_host 4096 [proc 200]) 1000))
           (prologue 1000 (Some pseudo_handle) (Ok 1)
            ++ [EvNext (Some (proc 200));
                EvOpenProcess FULL_ACCESS false 200 (Ok None)])
           false 200 (Ok (Some 201))
           [EvEmptyWorkingSet (Some 201) (Ok 1); EvCloseHandle (Some 201) 1;
            EvNext None; EvVirtualMemory 9192; EvEmit 8192]).
  reflexivity.
Defined.

(** * The widget *)

(** ** The toast *)

Lemma mebibytes_bounds (freed : Z) :
  0 <= Z.max 0 (freed / (1024 * 1024))
  /\ (if freed <? 0 then Z.max 0 (freed / (1024 * 1024)) = 0
      else Z.max 0 (freed / (1024 * 1024)) * 1048576 <= freed
           < (Z.max 0 (freed / (1024 * 1024)) + 1) * 1048576).
Proof.
  change (1024 * 1024) with 1048576.
  split; [lia|].
  destruct (freed <? 0) eqn:E.
  - apply Z.ltb_lt in E.
    assert (freed / 1048576 < 0) by (apply Z.div_lt_upper_bound; lia). lia.
  - apply Z.ltb_ge in E.
    assert (0 <= freed / 1048576) by (apply Z.div_pos; lia).
    rewrite Z.max_r by assumption.
    pose proof (Z.mul_div_le freed 1048576 ltac:(lia)).
    pose proof (Z.mul_succ_div_gt freed 1048576 ltac:(lia)). lia.
Qed.

(** X1.  [show_freed_toast] of either file writes "Freed N MB" where N is
    the number of whole mebibytes in [freed_bytes]: never negative, 0 for a
    negative argument, and otherwise the one N with
    [N * 1048576 <= freed_bytes < (N + 1) * 1048576]. *)
Theorem toast_reports_whole_mebibytes {F} (freed_bytes : Z)
    (w1 : W1.widget) (w3 : @W3.widget F) :
  exists mb,
    W1.toast_text (W1.show_freed_toast freed_bytes w1)
    = ("Freed " ++ str mb ++ " MB")%string
    /\ W3.toast_text (W3.show_freed_toast freed_bytes w3)
       = ("Freed " ++ str mb ++ " MB")%string
    /\ 0 <= mb
    /\ (if freed_bytes <? 0 then mb = 0
        else mb * 1048576 <= freed_bytes < (mb + 1) * 1048576).
Proof.
  exists (Z.max 0 (freed_bytes / (1024 * 1024))).
  destruct (mebibytes_bounds freed_bytes) as [H0 H1].
  repeat split; assumption.
Qed.

(** ** The tray icon *)

(** X8.  After any series of activations of the tray icon, the window of
    [app_V3.py] is shown or hidden as before if the number of activations
    by a plain click ([Trigger]) is even, and the other way round if it is
    odd; activations for any other reason change nothing. *)
Theorem tray_clicks_toggle_by_parity {F} (reasons : list Z)
    (w : @W3.widget F) :
  W3.visible (W3_activations reasons w)
  = xorb (W3.visible w)
      (Nat.odd (List.length (filter (fun r => r =? Trigger) reasons)))
  /\ W3.frame_top_left (W3_activations reasons w) = W3.frame_top_left w
  /\ W3.clean_btn_enabled (W3_activations reasons w)
     = W3.clean_btn_enabled w.
Proof.
  unfold W3_activations. revert w.
  induction reasons as [|r reasons IH]; intros w.
  - cbn. now rewrite xorb_false_r.
  - cbn [fold_left filter]. destruct (IH (W3.on_tray_activated r w))
      as (Hv & Hp & Hb).
    rewrite Hv, Hp, Hb. unfold W3.on_tray_activated, W3.toggle_visible.
    destruct (r =? Trigger).
    + cbn [List.length]. rewrite Nat.odd_succ, <- Nat.negb_odd.
      destruct (W3.visible w);
        destruct (Nat.odd (List.length
                             (filter (fun r => r =? Trigger) reasons)));
        repeat split.
    + repeat split.
Qed.

(** ** Dragging the window *)

Lemma int32_small (z : Z) : - 2 ^ 31 <= z < 2 ^ 31 -> int32 z = z.
Proof.
  intros H. unfold int32. rewrite Z.mod_small; lia.
Qed.

Lemma drag_displacement (p0 g0 g : QPoint) :
  in_range p0 -> in_range g0 -> in_range g ->
  QPoint_minus g (QPoint_minus g0 p0)
  = {| qx := qx p0 + (qx g - qx g0); qy := qy p0 + (qy g - qy g0) |}.
Proof.
  unfold in_range, QPoint_minus. cbn [qx qy].
  intros [Hpx Hpy] [Hg0x Hg0y] [Hgx Hgy].
  rewrite (int32_small (qx g0 - qx p0)) by lia.
  rewrite (int32_small (qy g0 - qy p0)) by lia.
  rewrite !int32_small by lia. f_equal; lia.
Qed.

Lemma last_left_move_from (moves : list QMouseEvent) (g : QPoint) :
  exists g',
    fold_left
      (fun acc e =>
         if negb (Z.land (buttons e) LeftButton =? 0)
         then Some (globalPoint e) else acc)
      moves (Some g) = Some g'.
Proof.
  revert g. induction moves as [|e moves IH]; intros g; cbn.
  - now exists g.
  - destruct (negb (Z.land (buttons e) LeftButton =? 0)); apply IH.
Qed.

Lemma W1_move_step (e : QMouseEvent) (w : W1.widget) :
  fst (W1.mouseMoveEvent e w)
  = if negb (Z.land (buttons e) LeftButton =? 0)
    then W1.with_frame_top_left
           (QPoint_minus (globalPoint e) (W1.drag_pos w)) w
    else w.
Proof.
  unfold W1.mouseMoveEvent.
  now destruct (negb (Z.land (buttons e) LeftButton =? 0)).
Qed.

Lemma W1_moves_spec (moves : list QMouseEvent) :
  forall (w : W1.widget) (acc : option QPoint),
    match acc with
    | None => True
    | Some g => W1.frame_top_left w = QPoint_minus g (W1.drag_pos w)
    end ->
    W1.frame_top_left (W1_moves moves w)
    = match fold_left
              (fun acc e =>
                 if negb (Z.land (buttons e) LeftButton =? 0)
                 then Some (globalPoint e) else acc)
              moves acc with
      | None => W1.frame_top_left w
      | Some g => QPoint_minus g (W1.drag_pos w)
      end.
Proof.
  unfold W1_moves.
  induction moves as [|e moves IH]; intros w acc Hacc.
  - cbn. destruct acc; [exact Hacc | reflexivity].
  - cbn [fold_left]. rewrite W1_move_step.
    destruct (negb (Z.land (buttons e) LeftButton =? 0)).
    + rewrite (IH _ (Some (globalPoint e))) by reflexivity.
      destruct (last_left_move_from moves (globalPoint e)) as [g' ->].
      reflexivity.
    + now apply IH.
Qed.

Lemma W3_move_step {F} (e : QMouseEvent) (w : @W3.widget F) :
  fst (W3.mouseMoveEvent e w)
  = if negb (Z.land (buttons e) LeftButton =? 0)
    then W3.with_frame_top_left
           (QPoint_minus (globalPoint e) (W3.drag_pos w)) w
    else w.
Proof.
  unfold W3.mouseMoveEvent.
  now destruct (negb (Z.land (buttons e) LeftButton =? 0)).
Qed.

Lemma W3_moves_spec {F} (moves : list QMouseEvent) :
  forall (w : @W3.widget F) (acc : option QPoint),
    match acc with
    | None => True
    | Some g => W3.frame_top_left w = QPoint_minus g (W3.drag_pos w)
    end ->
    W3.frame_top_left (W3_moves moves w)
    = match fold_left
              (fun acc e =>
                 if negb (Z.land (buttons e) LeftButton =? 0)
                 then Some (globalPoint e) else acc)
              moves acc with
      | None => W3.frame_top_left w
      | Some g => QPoint_minus g (W3.drag_pos w)
      end.
Proof.
  unfold W3_moves.
  induction moves as [|e moves IH]; intros w acc Hacc.
  - cbn. destruct acc; [exact Hacc | reflexivity].
  - cbn [fold_left]. rewrite W3_move_step.
    destruct (negb (Z.land (buttons e) LeftButton =? 0)).
    + rewrite (IH _ (Some (globalPoint e))) by reflexivity.
      destruct (last_left_move_from moves (globalPoint e)) as [g' ->].
      reflexivity.
    + now apply IH.
Qed.

Lemma last_left_move_in_range (moves : list QMouseEvent) (g : QPoint) :
  Forall (fun e => in_range (globalPoint e)) moves ->
  last_left_move moves = Some g ->
  in_range g.
Proof.
  unfold last_left_move. intros Hall.
  assert (Hgen : forall acc,
             match acc with None => True | Some a => in_range a end ->
             fold_left
               (fun acc e =>
                  if negb (Z.land (buttons e) LeftButton =? 0)
                  then Some (globalPoint e) else acc)
               moves acc = Some g -> in_range g).
  { induction Hall as [|e moves He _ IH]; intros acc Hacc; cbn.
    - intros ->. exact Hacc.
    - destruct (negb (Z.land (buttons e) LeftButton =? 0)); now apply IH. }
  now apply Hgen.
Qed.

(** X3.  In both files: after a press of the left button, whatever moves
    follow, the window's top left corner is where it was at the press,
    displaced by what the cursor has travelled from the press to the last
    move made with the left button down; moves without the left button
    leave the window where it is.  The coordinates are taken small enough
    for Qt's [int] not to overflow. *)
Theorem window_follows_cursor {F} (press : QMouseEvent)
    (moves : list QMouseEvent) (w1 : W1.widget) (w3 : @W3.widget F) :
  button press = LeftButton ->
  in_range (globalPoint press) ->
  in_range (W1.frame_top_left w1) ->
  in_range (W3.frame_top_left w3) ->
  Forall (fun e => in_range (globalPoint e)) moves ->
  W1.frame_top_left (W1_moves moves (fst (W1.mousePressEvent press w1)))
  = match last_left_move moves with
    | None => W1.frame_top_left w1
    | Some g =>
        {| qx := qx (W1.frame_top_left w1) + (qx g - qx (globalPoint press));
           qy := qy (W1.frame_top_left w1) + (qy g - qy (globalPoint press))
        |}
    end
  /\ W3.frame_top_left (W3_moves moves (fst (W3.mousePressEvent press w3)))
     = match last_left_move moves with
       | None => W3.frame_top_left w3
       | Some g =>
           {| qx := qx (W3.frame_top_left w3)
                    + (qx g - qx (globalPoint press));
              qy := qy (W3.frame_top_left w3)
                    + (qy g - qy (globalPoint press)) |}
       end.
Proof.
  intros Hleft Hg0 Hp1 Hp3 Hmoves.
  unfold W1.mousePressEvent, W3.mousePressEvent.
  rewrite Hleft, Z.eqb_refl. cbn [fst].
  split.
  - rewrite (W1_moves_spec moves _ None I).
    fold (last_left_move moves).
    destruct (last_left_move moves) as [g|] eqn:Hlast; [|reflexivity].
    cbn [W1.drag_pos W1.with_drag_pos].
    apply drag_displacement; try assumption.
    now apply last_left_move_in_range with moves.
  - rewrite (W3_moves_spec moves _ None I).
    fold (last_left_move moves).
    destruct (last_left_move moves) as [g|] eqn:Hlast; [|reflexivity].
    cbn [W3.drag_pos W3.with_drag_pos].
    apply drag_displacement; try assumption.
    now apply last_left_move_in_range with moves.
Qed.

(** ** The two percentages of [app_V3.py] *)

(** One tick: the cached integers are the rounded smoothed values, and
    each label either was rewritten to show its cached integer or is
    untouched along with it. *)
Lemma W3_update_stats_step {F} (fl : Float F) (ram cpu : F)
    (w : @W3.widget F) :
  W3._last_ram_i (W3.update_stats fl ram cpu w)
  = fl_round fl (W3._disp_ram (W3.update_stats fl ram cpu w))
  /\ W3._last_cpu_i (W3.update_stats fl ram cpu w)
     = fl_round fl (W3._disp_cpu (W3.update_stats fl ram cpu w))
  /\ (W3.ram_val (W3.update_stats fl ram cpu w)
      = W3.ltr_text
          (str (W3._last_ram_i (W3.update_stats fl ram cpu w)) ++ "%")
      /\ W3._last_ram_i (W3.update_stats fl ram cpu w) <> W3._last_ram_i w
      \/ W3.ram_val (W3.update_stats fl ram cpu w) = W3.ram_val w
         /\ W3._last_ram_i (W3.update_stats fl ram cpu w)
            = W3._last_ram_i w)
  /\ (W3.cpu_val (W3.update_stats fl ram cpu w)
      = W3.ltr_text
          (str (W3._last_cpu_i (W3.update_stats fl ram cpu w)) ++ "%")
      /\ W3._last_cpu_i (W3.update_stats fl ram cpu w) <> W3._last_cpu_i w
      \/ W3.cpu_val (W3.update_stats fl ram cpu w) = W3.cpu_val w
         /\ W3._last_cpu_i (W3.update_stats fl ram cpu w)
            = W3._last_cpu_i w).
Proof.
  unfold W3.update_stats.
  destruct ((W3._last_ram_i w =? -1) && (W3._last_cpu_i w =? -1)
            && fl_eqb fl (W3._disp_ram w) (fl_zero fl)
            && fl_eqb fl (W3._disp_cpu w) (fl_zero fl));
    cbn;
    match goal with
    | |- context [negb (?a =? W3._last_ram_i w)] =>
        destruct (Z.eqb_spec a (W3._last_ram_i w)) as [Er|Er]
    end; cbn;
    match goal with
    | |- context [negb (?a =? W3._last_cpu_i w)] =>
        destruct (Z.eqb_spec a (W3._last_cpu_i w)) as [Ec|Ec]
    end; cbn;
    (split; [congruence|]); (split; [congruence|]);
    split;
    first [ left; split; [reflexivity | congruence]
          | right; split; [reflexivity | congruence] ].
Qed.

(** X4.  In [app_V3.py], if each value label shows the percentage cached
    for it, it still does after any series of timer ticks; and after at
    least one tick the cached percentages are the rounded smoothed
    values. *)
Theorem labels_show_cached_percentages {F} (fl : Float F)
    (ticks : list (F * F)) (w : @W3.widget F) :
  W3_shows_cached w ->
  W3_shows_cached (W3_ticks fl ticks w)
  /\ match ticks with
     | [] => True
     | _ :: _ =>
         W3._last_ram_i (W3_ticks fl ticks w)
         = fl_round fl (W3._disp_ram (W3_ticks fl ticks w))
         /\ W3._last_cpu_i (W3_ticks fl ticks w)
            = fl_round fl (W3._disp_cpu (W3_ticks fl ticks w))
     end.
Proof.
  unfold W3_ticks. revert w.
  assert (Hstep : forall ram cpu (w : @W3.widget F),
             W3_shows_cached w ->
             W3_shows_cached (W3.update_stats fl ram cpu w)).
  { intros ram cpu w [Hr Hc].
    destruct (W3_update_stats_step fl ram cpu w)
      as (_ & _ & [[Hr' _]|[Hr1 Hr2]] & [[Hc' _]|[Hc1 Hc2]]);
      split; try assumption; congruence. }
  induction ticks as [|[ram cpu] ticks IH] using rev_ind; intros w Hw.
  - split; [exact Hw | exact I].
  - rewrite fold_left_app. cbn [fold_left fst snd].
    destruct (IH w Hw) as [Hcached _].
    split; [now apply Hstep|].
    destruct (ticks ++ [(ram, cpu)]) eqn:E.
    + now apply app_eq_nil in E.
    + destruct (W3_update_stats_step fl ram cpu
                  (fold_left
                     (fun w t => W3.update_stats fl (fst t) (snd t) w)
                     ticks w)) as (H1 & H2 & _).
      now split.
Qed.

Lemma str_not_dots (n : Z) : (str n ++ "%")%string <> "..."%string.
Proof.
  unfold str. destruct (Z.to_int n) as [u|u]; cbn.
  - destruct u; cbn; discriminate.
  - discriminate.
Qed.

Lemma ltr_text_inj (a b : string) : W3.ltr_text a = W3.ltr_text b -> a = b.
Proof.
  unfold W3.ltr_text, LRM. cbn. intros H. now injection H.
Qed.

(** X5.  In [app_V3.py], when a cleaning has ended both value labels still
    read "...".  The next tick replaces a label exactly when the rounded
    smoothed percentage differs from the one cached before the cleaning;
    while it is the same, the label keeps reading "...". *)
Theorem ellipsis_stays_until_percentage_changes {F} (fl : Float F)
    (freed_bytes : Z) (ram cpu : F) (w : @W3.widget F) :
  let w1 := W3.on_clean_done freed_bytes (W3.set_cleaning_ui true w) in
  let w2 := W3.update_stats fl ram cpu w1 in
  W3.ram_val w1 = W3.ltr_text "..."
  /\ W3.cpu_val w1 = W3.ltr_text "..."
  /\ (W3.ram_val w2 = W3.ltr_text "..."
      <-> fl_round fl (W3._disp_ram w2) = W3._last_ram_i w)
  /\ (W3.cpu_val w2 = W3.ltr_text "..."
      <-> fl_round fl (W3._disp_cpu w2) = W3._last_cpu_i w).
Proof.
  intros w1 w2.
  assert (Hr1 : W3.ram_val w1 = W3.ltr_text "...") by reflexivity.
  assert (Hc1 : W3.cpu_val w1 = W3.ltr_text "...") by reflexivity.
  assert (Hlr : W3._last_ram_i w1 = W3._last_ram_i w) by reflexivity.
  assert (Hlc : W3._last_cpu_i w1 = W3._last_cpu_i w) by reflexivity.
  destruct (W3_update_stats_step fl ram cpu w1) as (Hr & Hc & Hrv & Hcv).
  fold w2 in Hr, Hc, Hrv, Hcv.
  split; [exact Hr1|]. split; [exact Hc1|]. split.
  - destruct Hrv as [[Hv Hne]|[Hv He]].
    + split.
      * intros H. rewrite Hv in H. apply ltr_text_inj in H.
        now apply str_not_dots in H.
      * intros H. congruence.
    + split; congruence.
  - destruct Hcv as [[Hv Hne]|[Hv He]].
    + split.
      * intros H. rewrite Hv in H. apply ltr_text_inj in H.
        now apply str_not_dots in H.
      * intros H. congruence.
    + split; congruence.
Qed.

(** ** One cleaning at a time *)







(** ** From the click to the toast *)

(** X2.  In both files, one cleaning, from [clean_memory] through the
    thread's [run] to [on_clean_done], ends with both buttons enabled, as
    many cleaners running as before, and the toast reading "Freed N MB"
    for N the whole mebibytes of [max(0, after - before)], provided the
    signal hands the slot every value that fits a C [int] and the
    difference of the samples does. *)
Theorem cleaning_reports_sample_difference {World F} (fl : Float F)
    (signal_int : Z -> option Z) (host : Host World) (w : World)
    (a1 : W1.app) (a3 : @W3.app F) (before after : Z) :
  (forall v, 0 <= v < 2 ^ 31 -> signal_int v = Some v) ->
  samples (trace_of (V3.run host) w) = [before; after] ->
  after - before < 2 ^ 31 ->
  W1.toast_text (W1.ui (W1_clean_cycle fl signal_int host w a1))
  = ("Freed " ++ str (Z.max 0 (after - before) / 1048576) ++ " MB")%string
  /\ W1.clean_btn_enabled (W1.ui (W1_clean_cycle fl signal_int host w a1))
     = true
  /\ W1.action_btn_enabled (W1.ui (W1_clean_cycle fl signal_int host w a1))
     = true
  /\ W1.cleaners_running (W1_clean_cycle fl signal_int host w a1)
     = W1.cleaners_running a1
  /\ W3.toast_text (W3.ui (W3_clean_cycle fl signal_int host w a3))
     = ("Freed " ++ str (Z.max 0 (after - before) / 1048576)
        ++ " MB")%string
  /\ W3.clean_btn_enabled (W3.ui (W3_clean_cycle fl signal_int host w a3))
     = true
  /\ W3.action_btn_enabled (W3.ui (W3_clean_cycle fl signal_int host w a3))
     = true
  /\ W3.cleaners_running (W3_clean_cycle fl signal_int host w a3)
     = W3.cleaners_running a3.
Proof.
  intros Hsig Hs Hrange.
  destruct (run_shape_samples _ _ (V3_run_shape host w))
    as (b & a & Hs' & He).
  rewrite Hs in Hs'. injection Hs' as <- <-.
  assert (Hv : signal_int (Z.max 0 (after - before))
               = Some (Z.max 0 (after - before))) by (apply Hsig; lia).
  assert (Hmb : Z.max 0 (Z.max 0 (after - before) / (1024 * 1024))
                = Z.max 0 (after - before) / 1048576).
  { change (1024 * 1024) with 1048576.
    apply Z.max_r. apply Z.div_pos; lia. }
  unfold W1_clean_cycle, W3_clean_cycle. rewrite V1_run_V3, He.
  cbn [fold_left]. rewrite Hv.
  unfold W1.dispatch, W3.dispatch, W1.clean_memory, W3.clean_memory.
  cbn [W1.cleaners_running W1.with_cleaners_running W1.with_ui W1.ui
       W3.cleaners_running W3.with_cleaners_running W3.with_ui W3.ui].
  unfold W1.on_clean_done, W3.on_clean_done, W1.show_freed_toast,
    W3.show_freed_toast.
  rewrite Hmb. repeat split.
Qed.

(** ** The first tick *)


(** * The engine again *)

Lemma attempt_counts target t :
  attempt target t ->
  enumerated t = []
  /\ (List.length (targets t) <= 2)%nat
  /\ (List.length (closed t) <= 1)%nat
  /\ (List.length (trimmed t) <= 1)%nat.
Proof.
  destruct 1; cbn; repeat split; lia.
Qed.

Lemma loop_counts its :
  Forall (fun it => iteration (fst it) (snd it)) its ->
  (List.length (targets (loop_trace its))
   <= 2 * List.length (filter not_skipped (enumerated (loop_trace its))))%nat
  /\ (List.length (closed (loop_trace its))
      <= List.length (filter not_skipped (enumerated (loop_trace its))))%nat
  /\ (List.length (trimmed (loop_trace its))
      <= List.length (filter not_skipped (enumerated (loop_trace its))))%nat.
Proof.
  induction 1 as [|[p b] its Hit _ IH].
  - cbn. repeat split; lia.
  - rewrite loop_trace_cons.
    unfold targets, closed, trimmed, enumerated in *.
    cbn [flat_map target_of closing_of trimming_of record_of app].
    rewrite !flat_map_app. cbn [fst snd] in Hit. unfold iteration in Hit.
    cbn [filter].
    assert (Hns : not_skipped p = negb (in_0_4 (pid p))) by reflexivity.
    rewrite !Hns. clear Hns.
    destruct (in_0_4 (pid p)) eqn:E; cbn [negb].
    + subst b. cbn [flat_map app]. exact IH.
    + destruct (attempt_counts _ _ Hit) as (He & Ht & Hc & Hm).
      unfold targets, closed, trimmed, enumerated in *.
      rewrite He. cbn [app List.length]. rewrite !length_app. lia.
Qed.

(** X9.  A run of either variant calls [OpenProcess] at most twice, and
    [CloseHandle] at most once, for each enumerated record whose
    identifier is not 0 or 4, and [EmptyWorkingSet] at most once for each
    of them besides the one call for its own process. *)
Theorem calls_bounded_by_records {World} (v : variant) (host : Host World)
    (w : World) :
  (List.length (targets (trace_of (run_of v host) w))
   <= 2 * List.length
            (filter not_skipped
               (enumerated (trace_of (run_of v host) w))))%nat
  /\ (List.length (closed (trace_of (run_of v host) w))
      <= List.length
           (filter not_skipped
              (enumerated (trace_of (run_of v host) w))))%nat
  /\ (List.length (trimmed (trace_of (run_of v host) w))
      <= 1 + List.length
               (filter not_skipped
                  (enumerated (trace_of (run_of v host) w))))%nat.
Proof.
  destruct (run_of_shape v host w) as [before hc rt its after Hits].
  destruct (loop_counts its Hits) as (Ht & Hc & Hm).
  unfold targets, closed, trimmed, enumerated in *.
  rewrite !flat_map_app. cbn [prologue epilogue flat_map target_of
    closing_of trimming_of record_of app].
  rewrite !app_nil_r. cbn [List.length]. repeat split; lia.
Qed.

(** ** While a cleaning runs *)

Lemma cleaning_text_is_no_reading (r c : Z) :
  ("RAM: " ++ str r ++ "%   CPU: " ++ str c ++ "%")%string
  <> W1.cleaning_text.
Proof.
  unfold W1.cleaning_text. cbn. discriminate.
Qed.

(** X11.  In [app_V1.py] the text of line 257, set by [clean_memory], is
    overwritten by the next timer tick, whether or not the cleaner has
    reported by then: after the tick the label shows the two readings, the
    cleaner still counts as running and both buttons are still disabled. *)
Theorem busy_text_lasts_until_next_tick {F} (fl : Float F) (ram cpu : F)
    (a : W1.app) :
  W1.info_label (W1.ui (W1.clean_memory a)) = W1.cleaning_text
  /\ W1.info_label
       (W1.ui (W1.dispatch fl (W1.clean_memory a) (TimerTick ram cpu)))
     = ("RAM: " ++ str (fl_trunc fl ram) ++ "%   CPU: "
        ++ str (fl_trunc fl cpu) ++ "%")%string
  /\ W1.info_label
       (W1.ui (W1.dispatch fl (W1.clean_memory a) (TimerTick ram cpu)))
     <> W1.cleaning_text
  /\ W1.cleaners_running
       (W1.dispatch fl (W1.clean_memory a) (TimerTick ram cpu))
     = S (W1.cleaners_running a)
  /\ W1.clean_btn_enabled
       (W1.ui (W1.dispatch fl (W1.clean_memory a) (TimerTick ram cpu)))
     = false
  /\ W1.action_btn_enabled
       (W1.ui (W1.dispatch fl (W1.clean_memory a) (TimerTick ram cpu)))
     = false.
Proof.
  repeat split. apply cleaning_text_is_no_reading.
Qed.

(** X12.  In both files, once [clean_memory] has run, clicks on the clean
    button and on the task manager button change nothing until the cleaner
    reports: no second cleaner is started and [Popen] is not called. *)
Theorem clicks_ignored_while_cleaning {F} (fl : Float F)
    (clicks : list (gui_event F)) (a1 : W1.app) (a3 : @W3.app F) :
  forallb is_click clicks = true ->
  W1_events fl clicks (W1.clean_memory a1) = W1.clean_memory a1
  /\ W3_events fl clicks (W3.clean_memory a3) = W3.clean_memory a3.
Proof.
  unfold W1_events, W3_events.
  induction clicks as [|ev clicks IH]; intros Hclicks; [now split|].
  cbn in Hclicks. apply andb_true_iff in Hclicks.
  destruct Hclicks as [Hev Hclicks]. destruct (IH Hclicks) as [IH1 IH3].
  destruct ev; try discriminate Hev; cbn [fold_left]; split; assumption.
Qed.

(** * The extras at concrete inputs *)

Lemma cleaning_reports_sample_difference_witness :
  W1.toast_text
    (W1.ui (W1_clean_cycle tenths c_int_signal
              (demo_host 300000000 [proc 100]) 2000000000
              (W1_app W1_fresh)))
  = "Freed 572 MB"%string
  /\ W3.toast_text
       (W3.ui (W3_clean_cycle tenths c_int_signal
                 (demo_host 300000000 [proc 100]) 2000000000
                 (W3_app (W3_fresh tenths))))
     = "Freed 572 MB"%string.
Proof.
  assert (Hsig : forall v, 0 <= v < 2 ^ 31 -> c_int_signal v = Some v).
  { intros v Hv. unfold c_int_signal.
    replace (- 2 ^ 31 <=? v) with true by (symmetry; apply Z.leb_le; lia).
    replace (v <? 2 ^ 31) with true by (symmetry; apply Z.ltb_lt; lia).
    reflexivity. }
  destruct (cleaning_reports_sample_difference tenths c_int_signal
              (demo_host 300000000 [proc 100]) 2000000000
              (W1_app W1_fresh) (W3_app (W3_fresh tenths))
              2000000000 2600000000 Hsig eq_refl eq_refl)
    as (H1 & _ & _ & _ & H3 & _).
  split; [exact H1 | exact H3].
Defined.

Lemma window_follows_cursor_witness :
  W1.frame_top_left
    (W1_moves [mouse 0 1 110 105; mouse 0 0 500 500; mouse 0 3 130 90]
       (fst (W1.mousePressEvent (mouse 1 1 100 100)
               (W1.with_frame_top_left {| qx := 10; qy := 20 |} W1_fresh))))
  = {| qx := 40; qy := 10 |}
  /\ W3.frame_top_left
       (W3_moves [mouse 0 1 110 105; mouse 0 0 500 500; mouse 0 3 130 90]
          (fst (W3.mousePressEvent (mouse 1 1 100 100)
                  (W3.with_frame_top_left {| qx := 10; qy := 20 |}
                     (W3_fresh tenths)))))
     = {| qx := 40; qy := 10 |}.
Proof.
  apply (window_follows_cursor (mouse 1 1 100 100)
           [mouse 0 1 110 105; mouse 0 0 500 500; mouse 0 3 130 90]
           (W1.with_frame_top_left {| qx := 10; qy := 20 |} W1_fresh)
           (W3.with_frame_top_left {| qx := 10; qy := 20 |}
              (W3_fresh tenths))).
  - reflexivity.
  - unfold in_range; cbn; lia.
  - unfold in_range; cbn; lia.
  - unfold in_range; cbn; lia.
  - repeat constructor; unfold in_range; cbn; lia.
Defined.

Lemma labels_show_cached_percentages_witness :
  W3_shows_cached
    (W3_ticks tenths [(520, 210); (900, 100)]
       (W3.update_stats tenths 500 200 (W3_fresh tenths)))
  /\ W3._last_ram_i
       (W3_ticks tenths [(520, 210); (900, 100)]
          (W3.update_stats tenths 500 200 (W3_fresh tenths)))
     = 62.
Proof.
  destruct (labels_show_cached_percentages tenths [(520, 210); (900, 100)]
              (W3.update_stats tenths 500 200 (W3_fresh tenths))
              (conj eq_refl eq_refl))
    as (H1 & H2 & _).
  split; [exact H1 | exact H2].
Defined.



Lemma clicks_ignored_while_cleaning_witness :
  W1.popen_calls
    (W1_events tenths [ClickTaskManager; ClickClean; ClickTaskManager]
       (W1.clean_memory (W1_app W1_fresh))) = []
  /\ W3.cleaners_running
       (W3_events tenths [ClickTaskManager; ClickClean; ClickTaskManager]
          (W3.clean_memory (W3_app (W3_fresh tenths)))) = 1%nat.
Proof.
  destruct (clicks_ignored_while_cleaning tenths
              [ClickTaskManager; ClickClean; ClickTaskManager]
              (W1_app W1_fresh) (W3_app (W3_fresh tenths)) eq_refl)
    as [H1 H3].
  rewrite H1, H3. split; reflexivity.
Defined.
